(** * Smart light voice control: the command interpreter of [main.py]

    A shallow embedding of [src/main.py] (a Kivy application that listens
    for a spoken command, classifies the transcript with regular
    expressions and sends an infrared code) and the properties of it that
    the specification states.

    - Text is modelled by [string]; a character is a code point in the
      range U+0000..U+00FF (ASCII and Latin-1), on which [str.lower],
      [str.strip], [\w] and [re.IGNORECASE] are the functions of [Chars].
    - A method is a function of the environment and of the state of the
      application, to an outcome (a value, or an exception) and a state:
      an exception keeps the state reached, as in Python.
    - The environment says on which platform the program runs and which
      calls into Java raise. The calls into Kivy (widget properties,
      [Logger], [Clock]) do not raise.
    - What the program does to the outside is kept in a journal: log
      lines, transmissions, clock events, and the calls of [send_ir_code]
      with their arguments. The clock is the list of the pending events;
      firing one of them is an operation like the others. *)

From Stdlib Require Import String Ascii List ZArith NArith Bool Lia DecimalString.
Import ListNotations.
Local Open Scope string_scope.

(** ** Characters *)

Module Chars.

Definition within (lo hi : N) (c : ascii) : bool :=
  let n := N_of_ascii c in ((lo <=? n) && (n <=? hi))%N.

(** [str.lower] on one character: A-Z, and the Latin-1 capitals
    U+00C0..U+00DE without the multiplication sign U+00D7. *)
Definition lower_char (c : ascii) : ascii :=
  if within 65 90 c || within 192 214 c || within 216 222 c
  then ascii_of_N (N_of_ascii c + 32)
  else c.

(** [str.upper] on one ASCII character; the program applies it to keys of
    [COLOR_MAP] only, which are lower-case ASCII words. *)
Definition upper_char (c : ascii) : ascii :=
  if within 97 122 c then ascii_of_N (N_of_ascii c - 32) else c.

(** The class [\w] of a [str] pattern: alphanumeric characters and the
    underscore. *)
Definition is_word (c : ascii) : bool :=
  within 48 57 c || within 65 90 c || within 95 95 c || within 97 122 c
  || within 170 170 c || within 178 179 c || within 181 181 c
  || within 185 186 c || within 188 190 c || within 192 214 c
  || within 216 246 c || within 248 255 c.

(** White space as [str.strip] sees it. *)
Definition is_space (c : ascii) : bool :=
  within 9 13 c || within 28 32 c || within 133 133 c || within 160 160 c.

(** Two characters are equal under [re.IGNORECASE] when their lower-case
    forms are. This is so for U+0000..U+00FF only: beyond them Python also
    folds U+0130, U+017F and U+212A onto [i], [s] and [k], and [str.lower]
    maps U+0130 to two characters. *)
Definition eq_char (ignorecase : bool) (p c : ascii) : bool :=
  if ignorecase then Ascii.eqb (lower_char p) (lower_char c)
  else Ascii.eqb p c.

End Chars.

(** ** Strings *)

Module Str.

Fixpoint map (f : ascii -> ascii) (s : string) : string :=
  match s with
  | EmptyString => EmptyString
  | String c s' => String (f c) (map f s')
  end.

Definition lower : string -> string := map Chars.lower_char.
Definition upper : string -> string := map Chars.upper_char.

Fixpoint lstrip (s : string) : string :=
  match s with
  | String c s' => if Chars.is_space c then lstrip s' else s
  | EmptyString => EmptyString
  end.

(** [rstrip] keeps a character when it is not white space or when
    something is left after it. *)
Fixpoint rstrip (s : string) : string :=
  match s with
  | EmptyString => EmptyString
  | String c s' =>
      match rstrip s' with
      | EmptyString => if Chars.is_space c then EmptyString else String c EmptyString
      | t => String c t
      end
  end.

Definition strip (s : string) : string := rstrip (lstrip s).

(** The first [n] characters of [s]. *)
Fixpoint take (n : nat) (s : string) : string :=
  match n, s with
  | S n', String c s' => String c (take n' s')
  | _, _ => EmptyString
  end.

(** [sep.join(l)]. *)
Definition join (sep : string) (l : list string) : string := String.concat sep l.

End Str.

(** ** Regular expressions

    The fragment of Python's [re] that [COMMAND_PATTERNS] is written in: literal
    characters, the optional item [x?], the non-capturing group [(?:...)] (a plain
    sequence), [\w+] and one capturing group. Matching is by backtracking
    with greedy quantifiers, the leftmost match first, as [re.search] does. *)

Module Re.

Inductive re : Type :=
| Eps                      (* the empty pattern *)
| Chr (c : ascii)          (* a literal character *)
| Words                    (* \w+ *)
| Seq (a b : re)           (* a followed by b *)
| Opt (a : re)             (* a? *)
| Grp (a : re).            (* ( a ), the capturing group 1 *)

(** A match object: what [group(1)] holds, if the group took part. *)
Record match_obj : Type := Match { group1 : option string }.

(** The continuation receives the rest of the subject and the group. *)
Definition cont : Type := string -> option string -> option match_obj.

(** [\w*], greedy: the longest run first, then shorter ones. *)
Fixpoint many_words (s : string) (k : string -> option match_obj) : option match_obj :=
  match s with
  | String c s' =>
      if Chars.is_word c then
        match many_words s' k with
        | Some m => Some m
        | None => k s
        end
      else k s
  | EmptyString => k s
  end.

Fixpoint run (ignorecase : bool) (r : re) (s : string) (g : option string)
         (k : cont) : option match_obj :=
  match r with
  | Eps => k s g
  | Chr p =>
      match s with
      | String c s' => if Chars.eq_char ignorecase p c then k s' g else None
      | EmptyString => None
      end
  | Words =>
      match s with
      | String c s' =>
          if Chars.is_word c then many_words s' (fun t => k t g) else None
      | EmptyString => None
      end
  | Seq a b => run ignorecase a s g (fun t g' => run ignorecase b t g' k)
  | Opt a =>
      match run ignorecase a s g k with
      | Some m => Some m
      | None => k s g
      end
  | Grp a =>
      run ignorecase a s g
          (fun t _ => k t (Some (Str.take (String.length s - String.length t) s)))
  end.

(** [re.match]: a match that starts at the beginning of [s]. *)
Definition match_here (ignorecase : bool) (r : re) (s : string) : option match_obj :=
  run ignorecase r s None (fun _ g => Some (Match g)).

(** [re.search]: the first position of [s] at which the pattern matches. *)
Fixpoint search (r : re) (s : string) (ignorecase : bool) : option match_obj :=
  match match_here ignorecase r s with
  | Some m => Some m
  | None =>
      match s with
      | String _ s' => search r s' ignorecase
      | EmptyString => None
      end
  end.

(** A literal word, character by character. *)
Fixpoint lit (s : string) : re :=
  match s with
  | EmptyString => Eps
  | String c s' => Seq (Chr c) (lit s')
  end.

End Re.

Import Re.

Declare Scope re_scope.
Delimit Scope re_scope with re.
Notation "a +++ b" := (Seq a b) (at level 61, right associativity) : re_scope.

(** ** The tables of [main.py] *)

Local Open Scope Z_scope.

(** [COLOR_MAP], in the order of the dictionary literal. *)
Definition COLOR_MAP : list (string * list Z) :=
  [ ("red",    [38000; 9000; 4500; 562; 562; 1687; 562]);
    ("blue",   [38000; 9000; 4500; 562; 1687; 562; 562]);
    ("green",  [38000; 9000; 4500; 1687; 562; 562; 562]);
    ("white",  [38000; 9000; 4500; 562; 562; 562; 1687]);
    ("yellow", [38000; 9000; 4500; 1687; 562; 1687; 562]);
    ("purple", [38000; 9000; 4500; 562; 1687; 1687; 1687]);
    ("orange", [38000; 9000; 4500; 1687; 1687; 562; 562]);
    ("pink",   [38000; 9000; 4500; 1687; 562; 562; 1687]) ].

(** [d[key]] on a dictionary literal; [None] where Python raises [KeyError]. *)
Fixpoint dict_get {V : Type} (d : list (string * V)) (key : string) : option V :=
  match d with
  | [] => None
  | (k, v) :: d' => if String.eqb k key then Some v else dict_get d' key
  end.

(** [key in d]. *)
Definition dict_mem {V : Type} (d : list (string * V)) (key : string) : bool :=
  match dict_get d key with Some _ => true | None => false end.

(** [d.keys()]. *)
Definition dict_keys {V : Type} (d : list (string * V)) : list string := List.map fst d.

Inductive group : Type := On | Off | Color.

(** [COMMAND_PATTERNS]. *)
Definition COMMAND_PATTERNS (g : group) : list re :=
  match g with
  | On =>
      [ (lit "daddy" +++ Opt (Chr "'") +++ lit "s home")%re;  (* daddy'?s home *)
        lit "turn on";                                         (* turn on *)
        (lit "light" +++ Opt (Chr "s") +++ lit " on")%re;      (* lights? on *)
        lit "power on" ]                                       (* power on *)
  | Off =>
      [ lit "turn off";                                        (* turn off *)
        (lit "light" +++ Opt (Chr "s") +++ lit " off")%re;     (* lights? off *)
        lit "power off";                                       (* power off *)
        lit "shut off" ]                                       (* shut off *)
  | Color =>
      [ (lit "change to " +++ Grp Words)%re;                          (* change to (\w+) *)
        (lit "set " +++ Opt (lit "color ") +++ lit "to " +++ Grp Words)%re;
                                                               (* set (?:color )?to (\w+) *)
        (lit "make it " +++ Grp Words)%re;                            (* make it (\w+) *)
        (lit "switch to " +++ Grp Words)%re ]                         (* switch to (\w+) *)
  end.

(** The two lists written out in [execute_command]. *)
Definition ON_CODE : list Z := [38000; 9000; 4500; 562; 562; 562; 562].
Definition OFF_CODE : list Z := [38000; 9000; 4500; 562; 1687; 1687; 562].


(** ** The world of the program *)

(** An exception, with the text [str(e)] gives. *)
Inductive exn : Type := Exception (msg : string).

Definition str_exn (e : exn) : string := let 'Exception msg := e in msg.

(** [kivy.utils.platform]: ['android'] or anything else. The methods test
    it and both branches are modelled as written; but off Android the
    module does not load (the class statement of
    [VoiceRecognitionListener] needs [PythonJavaClass], which is imported
    on Android only), so that a run of the program is a run on
    [Android]. *)
Inductive platform_t : Type := Android | Desktop.

(** The calls into Java (through jnius); each of them may raise. *)
Inductive java_call : Type :=
| RequestPermissions
| GetSystemService
| HasIrEmitter
| Transmit
| CreateSpeechRecognizer
| SetRecognitionListener
| MakeIntent
| StartListening
| Destroy
| GetStringArrayList.

(** The [ConsumerIrManager] of the device. *)
Record ir_service : Type := IrService { hasIrEmitter : bool }.

(** What the program cannot choose: the platform, which Java calls raise and
    what [getSystemService(CONSUMER_IR_SERVICE)] returns. *)
Record env : Type := Env {
  platform : platform_t;
  raises : java_call -> option exn;
  consumer_ir : option ir_service
}.

(** A colour [(r, g, b, a)], in tenths. *)
Definition rgba : Type := (Z * Z * Z * Z)%type.

(** The widgets that [build] creates. *)
Record widgets : Type := Widgets {
  status_text : string;
  status_color : rgba;
  btn_text : string;
  btn_color : rgba;
  btn_disabled : bool;
  progress_value : Z;
  progress_opacity : Z;
  info_text : string
}.

(** The functions handed to [Clock.schedule_once]. *)
Inductive timer_callback : Type :=
| CbListeningTimeout      (* self.listening_timeout_callback *)
| CbAnimateProgress       (* lambda dt: self.animate_progress() *)
| CbStopListening.        (* lambda dt: self.stop_listening() *)

(** A pending [ClockEvent]; the delay is in milliseconds. *)
Record clock_event : Type := ClockEvent {
  ev_id : nat;
  ev_callback : timer_callback;
  ev_delay : Z
}.

Inductive level : Type := Info | Error.

(** What the program does to the outside, in the order it does it. *)
Inductive event : Type :=
| Log (l : level) (text : string)                    (* Logger.info, Logger.error *)
| SendIr (pattern : list Z) (action_text : string)   (* send_ir_code is entered *)
| IrTransmit (frequency : Z) (signal : list Z)       (* ir_manager.transmit *)
| Scheduled (id : nat) (cb : timer_callback) (delay : Z)   (* Clock.schedule_once *)
| Cancelled (id : nat)                               (* ClockEvent.cancel *)
| RecognizerCreated (id : nat)
| RecognizerStarted (id : nat)
| RecognizerDestroyed (id : nat).

(** The attributes of [SmartLightControlApp], its widgets, the pending clock
    events and the journal of what it did. *)
Record SmartLightControlApp : Type := App {
  ir_manager : option ir_service;
  recognizer : option nat;
  is_listening : bool;
  listening_timeout : option nat;
  current_color : string;
  ui : widgets;
  clock : list clock_event;
  fresh : nat;
  journal : list event
}.

Definition set_ir_manager (v : option ir_service) (a : SmartLightControlApp) : SmartLightControlApp :=
  App v (recognizer a) (is_listening a) (listening_timeout a) (current_color a)
      (ui a) (clock a) (fresh a) (journal a).
Definition set_recognizer (v : option nat) (a : SmartLightControlApp) : SmartLightControlApp :=
  App (ir_manager a) v (is_listening a) (listening_timeout a) (current_color a)
      (ui a) (clock a) (fresh a) (journal a).
Definition set_is_listening (v : bool) (a : SmartLightControlApp) : SmartLightControlApp :=
  App (ir_manager a) (recognizer a) v (listening_timeout a) (current_color a)
      (ui a) (clock a) (fresh a) (journal a).
Definition set_listening_timeout (v : option nat) (a : SmartLightControlApp) : SmartLightControlApp :=
  App (ir_manager a) (recognizer a) (is_listening a) v (current_color a)
      (ui a) (clock a) (fresh a) (journal a).
Definition set_current_color (v : string) (a : SmartLightControlApp) : SmartLightControlApp :=
  App (ir_manager a) (recognizer a) (is_listening a) (listening_timeout a) v
      (ui a) (clock a) (fresh a) (journal a).
Definition set_ui (v : widgets) (a : SmartLightControlApp) : SmartLightControlApp :=
  App (ir_manager a) (recognizer a) (is_listening a) (listening_timeout a)
      (current_color a) v (clock a) (fresh a) (journal a).
Definition set_clock (v : list clock_event) (a : SmartLightControlApp) : SmartLightControlApp :=
  App (ir_manager a) (recognizer a) (is_listening a) (listening_timeout a)
      (current_color a) (ui a) v (fresh a) (journal a).
Definition set_fresh (v : nat) (a : SmartLightControlApp) : SmartLightControlApp :=
  App (ir_manager a) (recognizer a) (is_listening a) (listening_timeout a)
      (current_color a) (ui a) (clock a) v (journal a).
Definition set_journal (v : list event) (a : SmartLightControlApp) : SmartLightControlApp :=
  App (ir_manager a) (recognizer a) (is_listening a) (listening_timeout a)
      (current_color a) (ui a) (clock a) (fresh a) v.

Definition set_status (text : string) (color : rgba) (w : widgets) : widgets :=
  Widgets text color (btn_text w) (btn_color w) (btn_disabled w)
          (progress_value w) (progress_opacity w) (info_text w).
Definition set_btn (text : string) (color : rgba) (w : widgets) : widgets :=
  Widgets (status_text w) (status_color w) text color (btn_disabled w)
          (progress_value w) (progress_opacity w) (info_text w).
Definition set_btn_disabled (v : bool) (w : widgets) : widgets :=
  Widgets (status_text w) (status_color w) (btn_text w) (btn_color w) v
          (progress_value w) (progress_opacity w) (info_text w).
Definition set_progress_value (v : Z) (w : widgets) : widgets :=
  Widgets (status_text w) (status_color w) (btn_text w) (btn_color w)
          (btn_disabled w) v (progress_opacity w) (info_text w).
Definition set_progress_opacity (v : Z) (w : widgets) : widgets :=
  Widgets (status_text w) (status_color w) (btn_text w) (btn_color w)
          (btn_disabled w) (progress_value w) v (info_text w).
Definition set_info_text (v : string) (w : widgets) : widgets :=
  Widgets (status_text w) (status_color w) (btn_text w) (btn_color w)
          (btn_disabled w) (progress_value w) (progress_opacity w) v.

(** ** Computations: state, and exceptions that keep the state *)

Inductive outcome (A : Type) : Type :=
| Ret (a : A)
| Raise (e : exn).
Arguments Ret {A} a.
Arguments Raise {A} e.

Definition Py (A : Type) : Type := env -> SmartLightControlApp -> outcome A * SmartLightControlApp.

Definition ret {A : Type} (x : A) : Py A := fun _ a => (Ret x, a).

Definition bind {A B : Type} (c : Py A) (k : A -> Py B) : Py B :=
  fun e a =>
    match c e a with
    | (Ret x, a') => k x e a'
    | (Raise x, a') => (Raise x, a')
    end.

Definition raise {A : Type} (x : exn) : Py A := fun _ a => (Raise x, a).

(** [try: body except Exception as e: handler e]. *)
Definition try_except {A : Type} (body : Py A) (handler : exn -> Py A) : Py A :=
  fun e a =>
    match body e a with
    | (Ret x, a') => (Ret x, a')
    | (Raise x, a') => handler x e a'
    end.

(** [try: body finally: final]. *)
Definition try_finally {A : Type} (body : Py A) (final : Py unit) : Py A :=
  fun e a =>
    match body e a with
    | (r, a') =>
        match final e a' with
        | (Ret _, a'') => (r, a'')
        | (Raise x, a'') => (Raise x, a'')
        end
    end.

Declare Scope py_scope.
Delimit Scope py_scope with py.
Notation "x <- c ;; k" := (bind c (fun x => k))
  (at level 100, c at next level, right associativity) : py_scope.
Notation "c ;; k" := (bind c (fun _ => k))
  (at level 100, right associativity) : py_scope.
Local Open Scope py_scope.

Definition get : Py SmartLightControlApp := fun _ a => (Ret a, a).
Definition ask : Py env := fun e a => (Ret e, a).
Definition modify (f : SmartLightControlApp -> SmartLightControlApp) : Py unit := fun _ a => (Ret tt, f a).
Definition modify_ui (f : widgets -> widgets) : Py unit :=
  modify (fun a => set_ui (f (ui a)) a).

Definition emit (ev : event) : Py unit :=
  modify (fun a => set_journal (journal a ++ [ev]) a).

(** A call into Java: raises what the environment says it raises. *)
Definition java (c : java_call) : Py unit :=
  fun e a =>
    match raises e c with
    | Some x => (Raise x, a)
    | None => (Ret tt, a)
    end.

Definition on_android : Py bool :=
  e <- ask ;; ret (match platform e with Android => true | Desktop => false end).

Definition logger_info (text : string) : Py unit := emit (Log Info text).
Definition logger_error (text : string) : Py unit := emit (Log Error text).

(** [Clock.schedule_once(cb, delay)]; the result is the new [ClockEvent]. *)
Definition schedule_once (cb : timer_callback) (delay : Z) : Py nat :=
  a <- get ;;
  let id := fresh a in
  modify (fun a => set_fresh (S id) (set_clock (clock a ++ [ClockEvent id cb delay]) a)) ;;
  emit (Scheduled id cb delay) ;;
  ret id.

(** [ClockEvent.cancel()]. *)
Definition cancel (id : nat) : Py unit :=
  modify (fun a => set_clock (filter (fun ev => negb (Nat.eqb (ev_id ev) id)) (clock a)) a) ;;
  emit (Cancelled id).

Definition nl : string := String (ascii_of_nat 10) EmptyString.

(** ** The methods of [SmartLightControlApp] *)

Definition WHITE : rgba := (10, 10, 10, 10).     (* (1, 1, 1, 1) *)
Definition GREEN : rgba := (2, 8, 2, 10).        (* (0.2, 0.8, 0.2, 1) *)
Definition RED : rgba := (9, 2, 2, 10).          (* (0.9, 0.2, 0.2, 1) *)
Definition BTN_GREEN : rgba := (2, 7, 3, 10).    (* (0.2, 0.7, 0.3, 1) *)

Definition show_status (message : string) : Py unit :=
  modify_ui (set_status message WHITE).

Definition show_success (message : string) : Py unit :=
  modify_ui (set_status message GREEN).

Definition show_error (message : string) : Py unit :=
  modify_ui (set_status ("❌ " ++ message) RED) ;;
  logger_error message.

(** The text of the info panel, as [build] and [update_info_panel] write it. *)
Definition info_panel_text (color : string) : string :=
  "[b]Commands:[/b]" ++ nl ++
  "• 'Daddy's home' / 'Turn on' - Turn lights on" ++ nl ++
  "• 'Turn off' - Turn lights off" ++ nl ++
  "• 'Change to [color]' - Available colors: "
    ++ Str.join ", " (dict_keys COLOR_MAP) ++ nl ++
  "[b]Current color:[/b] " ++ color.

Definition update_info_panel : Py unit :=
  a <- get ;;
  modify_ui (set_info_text (info_panel_text (current_color a))).

(** The state after [__init__], as [build] finds it. [__init__] creates no
    widget: the widgets here are placeholders that [build] overwrites, and
    the states of the application are the ones from [build] on (see
    [running]); a method called before [build] is not modelled. *)
Definition new_app : SmartLightControlApp :=
  App None None false None "white"
      (Widgets "" WHITE "" WHITE false 0 1 "")
      [] 0%nat [].

Definition build : Py unit :=
  android <- on_android ;;
  (if android
   then try_except (java RequestPermissions)
          (fun e => logger_error ("Permission request failed: " ++ str_exn e))
   else ret tt) ;;
  a <- get ;;
  modify_ui (fun _ =>
    Widgets "Ready! Press the button and speak your command" WHITE
            "🎤 Start Listening" BTN_GREEN false
            0 0
            (info_panel_text (current_color a))).

Definition on_start : Py unit :=
  android <- on_android ;;
  if android then
    try_except
      (java GetSystemService ;;
       e <- ask ;;
       modify (set_ir_manager (consumer_ir e)) ;;
       no_emitter <-
         match consumer_ir e with
         | None => ret true
         | Some m => java HasIrEmitter ;; ret (negb (hasIrEmitter m))
         end ;;
       if no_emitter then
         show_error "No IR blaster detected on this device" ;;
         modify_ui (set_btn_disabled true)
       else
         logger_info "IR blaster initialized successfully")
      (fun e =>
         show_error ("IR initialization failed: " ++ str_exn e) ;;
         modify_ui (set_btn_disabled true))
  else
    show_status "Running in desktop mode - IR features disabled".

(** The [try] block of [send_ir_code]. *)
Definition send_ir_code_try (pattern : list Z) (action_text : string) : Py unit :=
  android <- on_android ;;
  if negb android then
    show_status ("[Desktop Mode] " ++ action_text)
  else
    a <- get ;;
    match ir_manager a with
    | None => show_error "IR manager not available"
    | Some m =>
        java HasIrEmitter ;;
        if negb (hasIrEmitter m) then
          show_error "No IR emitter found"
        else
          match pattern with
          | [] => raise (Exception "list index out of range")
          | frequency :: signal_pattern =>
              java Transmit ;;
              emit (IrTransmit frequency signal_pattern) ;;
              show_success ("✅ " ++ action_text) ;;
              logger_info ("IR signal sent: " ++ action_text)
          end
    end.

(** Its [except Exception as e] block. *)
Definition send_ir_code_except (e : exn) : Py unit :=
  logger_error ("IR transmission error: " ++ str_exn e) ;;
  show_error ("Failed to send IR signal: " ++ str_exn e).

Definition send_ir_code (pattern : list Z) (action_text : string) : Py unit :=
  emit (SendIr pattern action_text) ;;
  try_except (send_ir_code_try pattern action_text) send_ir_code_except.

(** [for pattern in patterns: m = re.search(pattern, command, re.IGNORECASE);
    if m: ...]: the match of the first pattern that matches. *)
Fixpoint first_match (patterns : list re) (command : string) : option match_obj :=
  match patterns with
  | [] => None
  | pattern :: rest =>
      match search pattern command true with
      | Some m => Some m
      | None => first_match rest command
      end
  end.

(** The [try] block of [execute_command]. *)
Definition execute_command_try (command : string) : Py bool :=
  match first_match (COMMAND_PATTERNS On) command with
  | Some _ =>
      send_ir_code ON_CODE "Turning lights ON" ;;
      ret true
  | None =>
  match first_match (COMMAND_PATTERNS Off) command with
  | Some _ =>
      send_ir_code OFF_CODE "Turning lights OFF" ;;
      ret true
  | None =>
  match first_match (COMMAND_PATTERNS Color) command with
  | Some m =>
      match group1 m with
      | None => raise (Exception "'NoneType' object has no attribute 'lower'")
      | Some word =>
          let color := Str.lower word in
          match dict_get COLOR_MAP color with
          | Some code =>
              modify (set_current_color color) ;;
              update_info_panel ;;
              send_ir_code code ("Changing to " ++ Str.upper color) ;;
              ret true
          | None =>
              show_status ("Color '" ++ color ++ "' not available. Try: "
                           ++ Str.join ", " (dict_keys COLOR_MAP)) ;;
              ret false
          end
      end
  | None => ret false
  end end end.

(** Its [except Exception as e] block. *)
Definition execute_command_except (e : exn) : Py bool :=
  logger_error ("Error executing command: " ++ str_exn e) ;;
  show_error ("Command execution error: " ++ str_exn e) ;;
  ret false.

Definition execute_command (command : string) : Py bool :=
  try_except (execute_command_try command) execute_command_except.

Definition stop_listening : Py unit :=
  try_except
    (a <- get ;;
     match recognizer a with
     | Some r =>
         java Destroy ;;
         emit (RecognizerDestroyed r) ;;
         modify (set_recognizer None)
     | None => ret tt
     end ;;
     a <- get ;;
     match listening_timeout a with
     | Some t =>
         cancel t ;;
         modify (set_listening_timeout None)
     | None => ret tt
     end ;;
     modify (set_is_listening false) ;;
     modify_ui (set_btn "🎤 Start Listening" BTN_GREEN) ;;
     modify_ui (set_progress_opacity 0))
    (fun e => logger_error ("Error stopping recognition: " ++ str_exn e)).

Definition animate_progress : Py unit :=
  a <- get ;;
  if is_listening a then
    modify_ui (fun w => set_progress_value ((progress_value w + 10) mod 100) w) ;;
    _ <- schedule_once CbAnimateProgress 200 ;;
    ret tt
  else ret tt.

Definition start_listening : Py unit :=
  android <- on_android ;;
  if negb android then
    show_status "Voice recognition only works on Android devices"
  else
    try_except
      (modify (set_is_listening true) ;;
       modify_ui (set_btn "🔴 Listening... (Speak Now)" RED) ;;
       show_status "🎤 Listening for your command..." ;;
       modify_ui (set_progress_opacity 1) ;;
       animate_progress ;;
       java CreateSpeechRecognizer ;;
       a <- get ;;
       let r := fresh a in
       modify (fun a => set_fresh (S r) (set_recognizer (Some r) a)) ;;
       emit (RecognizerCreated r) ;;
       java SetRecognitionListener ;;
       java MakeIntent ;;
       java StartListening ;;
       emit (RecognizerStarted r) ;;
       t <- schedule_once CbListeningTimeout 10000 ;;
       modify (set_listening_timeout (Some t)))
      (fun e =>
         logger_error ("Failed to start listening: " ++ str_exn e) ;;
         show_error ("Failed to start voice recognition: " ++ str_exn e) ;;
         stop_listening).

Definition toggle_listening : Py unit :=
  a <- get ;;
  if is_listening a then stop_listening else start_listening.

Definition listening_timeout_callback : Py unit :=
  show_status "Listening timeout - please try again" ;;
  stop_listening.

(** The loop of [process_speech] over the recognition results. *)
Fixpoint try_commands (matches : list string) : Py bool :=
  match matches with
  | [] => ret false
  | m :: rest =>
      let command := Str.strip (Str.lower m) in
      logger_info ("Processing command: '" ++ command ++ "'") ;;
      executed <- execute_command command ;;
      if executed then ret true else try_commands rest
  end.

(** The [try] block of [process_speech]. [results] is what
    [results.getStringArrayList(RESULTS_RECOGNITION)] returns: [None] for
    Java's null. *)
Definition process_speech_try (results : option (list string)) : Py unit :=
  android <- on_android ;;
  if negb android then ret tt
  else
    java GetStringArrayList ;;
    match results with
    | None | Some [] =>
        show_status "No speech detected - please try again" ;;
        stop_listening
    | Some matches =>
        command_executed <- try_commands matches ;;
        if negb command_executed then
          show_status "Command not recognized. Try: 'Turn on', 'Turn off', or 'Change to [color]'"
        else ret tt
    end.

(** Its [except Exception as e] block. *)
Definition process_speech_except (e : exn) : Py unit :=
  logger_error ("Error processing speech: " ++ str_exn e) ;;
  show_error ("Speech processing error: " ++ str_exn e).

(** Its [finally] block. *)
Definition process_speech_finally : Py unit :=
  _ <- schedule_once CbStopListening 1000 ;; ret tt.

Definition process_speech (results : option (list string)) : Py unit :=
  try_finally
    (try_except (process_speech_try results) process_speech_except)
    process_speech_finally.

Definition handle_recognition_error (error_message : string) : Py unit :=
  show_error ("Voice recognition error: " ++ error_message) ;;
  _ <- schedule_once CbStopListening 1000 ;;
  ret tt.

Definition on_stop : Py unit :=
  try_except stop_listening (fun _ => ret tt).

(** ** [VoiceRecognitionListener] *)

Definition str_int (n : Z) : string :=
  DecimalString.NilZero.string_of_int (Z.to_int n).

Definition error_messages : list (Z * string) :=
  [ (1, "Network timeout"); (2, "Network error"); (3, "Audio error");
    (4, "Server error"); (5, "Client error"); (6, "Speech timeout");
    (7, "No match found"); (8, "Recognition service busy");
    (9, "Insufficient permissions") ].

(** [error_messages.get(error, default)]. *)
Fixpoint int_dict_get (d : list (Z * string)) (key : Z) (default : string) : string :=
  match d with
  | [] => default
  | (k, v) :: d' => if Z.eqb k key then v else int_dict_get d' key default
  end.

Section Listener.

Variable callback : option (list string) -> Py unit.
Variable error_callback : string -> Py unit.

Definition onResults (results : option (list string)) : Py unit :=
  try_except (callback results)
    (fun e =>
       logger_error ("VoiceRecognition: Error in onResults: " ++ str_exn e) ;;
       error_callback ("Processing error: " ++ str_exn e)).

Definition onError (error : Z) : Py unit :=
  let message := int_dict_get error_messages error ("Unknown error: " ++ str_int error) in
  logger_error ("VoiceRecognition: " ++ message) ;;
  error_callback message.

Definition onReadyForSpeech : Py unit := logger_info "VoiceRecognition: Ready for speech".
Definition onBeginningOfSpeech : Py unit := logger_info "VoiceRecognition: Speech started".
Definition onEndOfSpeech : Py unit := logger_info "VoiceRecognition: Speech ended".

End Listener.

(** The listener that [start_listening] installs:
    [VoiceRecognitionListener(self.process_speech, self.handle_recognition_error)]. *)
Definition listener_onResults : option (list string) -> Py unit :=
  onResults process_speech handle_recognition_error.
Definition listener_onError : Z -> Py unit :=
  onError handle_recognition_error.

(** ** The clock *)

Definition run_callback (cb : timer_callback) : Py unit :=
  match cb with
  | CbListeningTimeout => listening_timeout_callback
  | CbAnimateProgress => animate_progress
  | CbStopListening => stop_listening
  end.

(** The clock fires the pending event [id], if there is one: the event
    leaves the clock and its callback runs. *)
Definition fire (id : nat) : Py unit :=
  a <- get ;;
  match find (fun ev => Nat.eqb (ev_id ev) id) (clock a) with
  | Some ev =>
      modify (fun a => set_clock (filter (fun ev => negb (Nat.eqb (ev_id ev) id)) (clock a)) a) ;;
      run_callback (ev_callback ev)
  | None => ret tt
  end.

(** ** Operations

    Every method of the application and of its listener, and the clock
    firing an event. *)
Inductive op : Type :=
| OpBuild
| OpOnStart
| OpToggleListening
| OpStartListening
| OpStopListening
| OpListeningTimeoutCallback
| OpAnimateProgress
| OpProcessSpeech (results : option (list string))
| OpExecuteCommand (command : string)
| OpSendIrCode (pattern : list Z) (action_text : string)
| OpHandleRecognitionError (error_message : string)
| OpShowStatus (message : string)
| OpShowSuccess (message : string)
| OpShowError (message : string)
| OpUpdateInfoPanel
| OpOnStop
| OpOnResults (results : option (list string))
| OpOnError (error : Z)
| OpOnReadyForSpeech
| OpOnBeginningOfSpeech
| OpOnEndOfSpeech
| OpFire (id : nat).

Definition run_op (o : op) : Py unit :=
  match o with
  | OpBuild => build
  | OpOnStart => on_start
  | OpToggleListening => toggle_listening
  | OpStartListening => start_listening
  | OpStopListening => stop_listening
  | OpListeningTimeoutCallback => listening_timeout_callback
  | OpAnimateProgress => animate_progress
  | OpProcessSpeech results => process_speech results
  | OpExecuteCommand command => _ <- execute_command command ;; ret tt
  | OpSendIrCode pattern action_text => send_ir_code pattern action_text
  | OpHandleRecognitionError error_message => handle_recognition_error error_message
  | OpShowStatus message => show_status message
  | OpShowSuccess message => show_success message
  | OpShowError message => show_error message
  | OpUpdateInfoPanel => update_info_panel
  | OpOnStop => on_stop
  | OpOnResults results => listener_onResults results
  | OpOnError error => listener_onError error
  | OpOnReadyForSpeech => onReadyForSpeech
  | OpOnBeginningOfSpeech => onBeginningOfSpeech
  | OpOnEndOfSpeech => onEndOfSpeech
  | OpFire id => fire id
  end.


(** ** Notions the properties are stated with *)

(** Some pattern of the group matches the command. *)
Definition matches_group (g : group) (command : string) : Prop :=
  exists p, In p (COMMAND_PATTERNS g) /\ search p command true <> None.

(** [pattern] is one of the constant lists of the program. *)
Definition ir_code (pattern : list Z) : Prop :=
  pattern = ON_CODE \/ pattern = OFF_CODE \/
  exists color, dict_get COLOR_MAP color = Some pattern.

(** No Java call raises. *)
Definition quiet : java_call -> option exn := fun _ => None.

(** A phone with an infrared emitter, on which nothing fails. *)
Definition phone : env := Env Android quiet (Some (IrService true)).

(** The application on the phone, after [build] and [on_start]. *)
Definition ready_app : SmartLightControlApp := snd (on_start phone (snd (build phone new_app))).

(** The state in which [execute_command] calls [send_ir_code] for a colour:
    [current_color] is assigned and the info panel rewritten. *)
Definition with_color (color : string) (a : SmartLightControlApp) : SmartLightControlApp :=
  set_ui (set_info_text (info_panel_text color) (ui a)) (set_current_color color a).


(** Journals without a call of [send_ir_code], without a transmission,
    without a scheduled clock event. *)
Definition no_send (d : list event) : Prop :=
  forall p t, ~ In (SendIr p t) d.
Definition no_transmit (d : list event) : Prop :=
  forall f s, ~ In (IrTransmit f s) d.
Definition no_schedule (d : list event) : Prop :=
  forall id cb delay, ~ In (Scheduled id cb delay) d.

(** Journals of log lines and the like: none of the three. *)
Definition quiet_events (d : list event) : Prop :=
  no_send d /\ no_transmit d /\ no_schedule d.

(** What follows the entry of [send_ir_code pattern action_text] in the
    journal: the transmission of [pattern[0]] and [pattern[1:]] and one log
    line, or no transmission. *)
Definition ir_tail (pattern : list Z) (action_text : string) (tail : list event) : Prop :=
  no_send tail /\ no_schedule tail /\
  ((exists f s, pattern = f :: s /\
      tail = [IrTransmit f s; Log Info ("IR signal sent: " ++ action_text)]) \/
   no_transmit tail).

(** The command is classified: judged by the groups in the order on, off,
    color, it selects the list [pattern] and the text [action_text]. *)
Definition classified (command : string) (pattern : list Z) (action_text : string) : Prop :=
  (matches_group On command /\
   pattern = ON_CODE /\ action_text = "Turning lights ON") \/
  (~ matches_group On command /\ matches_group Off command /\
   pattern = OFF_CODE /\ action_text = "Turning lights OFF") \/
  (~ matches_group On command /\ ~ matches_group Off command /\
   exists m word,
     first_match (COMMAND_PATTERNS Color) command = Some m /\
     group1 m = Some word /\
     dict_get COLOR_MAP (Str.lower word) = Some pattern /\
     action_text = "Changing to " ++ Str.upper (Str.lower word)).

(** The session (recognizer, flag, timeout), the clock and the infrared
    manager are the same in both states. *)
Definition same_session (a a' : SmartLightControlApp) : Prop :=
  recognizer a' = recognizer a /\ is_listening a' = is_listening a /\
  listening_timeout a' = listening_timeout a /\ clock a' = clock a /\
  fresh a' = fresh a /\ ir_manager a' = ir_manager a.

(** [current_color] is a key of [COLOR_MAP]. *)
Definition color_ok (a : SmartLightControlApp) : Prop :=
  dict_mem COLOR_MAP (current_color a) = true.

Definition java_call_eqb (c c' : java_call) : bool :=
  match c, c' with
  | RequestPermissions, RequestPermissions
  | GetSystemService, GetSystemService
  | HasIrEmitter, HasIrEmitter
  | Transmit, Transmit
  | CreateSpeechRecognizer, CreateSpeechRecognizer
  | SetRecognitionListener, SetRecognitionListener
  | MakeIntent, MakeIntent
  | StartListening, StartListening
  | Destroy, Destroy
  | GetStringArrayList, GetStringArrayList => true
  | _, _ => false
  end.

(** A phone on which the Java call [c] raises [x] and no other call
    raises. *)
Definition phone_where (c : java_call) (x : exn) : env :=
  Env Android (fun c' => if java_call_eqb c c' then Some x else None)
      (Some (IrService true)).

(** The recovery actions. [logged]: one error line in the log.
    [reported]: what [show_error] does, the message in the status label, in
    red, and in the log. [stop_scheduled]: [stop_listening] handed to the
    clock, to run in a second. [entered]: the journal entry of a call of
    [send_ir_code]. *)
Definition logged (message : string) (a : SmartLightControlApp) : SmartLightControlApp :=
  set_journal (journal a ++ [Log Error message]) a.

Definition reported (message : string) (a : SmartLightControlApp) : SmartLightControlApp :=
  logged message (set_ui (set_status ("❌ " ++ message) RED (ui a)) a).

Definition stop_scheduled (a : SmartLightControlApp) : SmartLightControlApp :=
  set_journal (journal a ++ [Scheduled (fresh a) CbStopListening 1000])
    (set_fresh (S (fresh a))
       (set_clock (clock a ++ [ClockEvent (fresh a) CbStopListening 1000]) a)).

Definition entered (pattern : list Z) (action_text : string)
           (a : SmartLightControlApp) : SmartLightControlApp :=
  set_journal (journal a ++ [SendIr pattern action_text]) a.

(** The states the application can be in: [new_app], and what any operation
    makes of a state, in any environment. *)
Inductive reachable : SmartLightControlApp -> Prop :=
| reach_new : reachable new_app
| reach_op (o : op) (e : env) (a : SmartLightControlApp) :
    reachable a -> reachable (snd (run_op o e a)).

(** ** Notions for the further properties *)

(** The match object with its group in lower case. *)
Definition lower_match (m : match_obj) : match_obj :=
  Match (option_map Str.lower (group1 m)).

(** Whether [execute_command] accepts the command: the groups are judged
    in the order on, off, color, each by its first pattern that matches. *)
Definition accepts (command : string) : bool :=
  match first_match (COMMAND_PATTERNS On) command with
  | Some _ => true
  | None =>
  match first_match (COMMAND_PATTERNS Off) command with
  | Some _ => true
  | None =>
  match first_match (COMMAND_PATTERNS Color) command with
  | Some m =>
      match group1 m with
      | Some word => dict_mem COLOR_MAP (Str.lower word)
      | None => false
      end
  | None => false
  end end end.

(** Every character of [s] is of the class [\w]. *)
Fixpoint all_word (s : string) : bool :=
  match s with
  | EmptyString => true
  | String c s' => Chars.is_word c && all_word s'
  end.

(** Some character of [s] is white space. *)
Fixpoint has_space (s : string) : bool :=
  match s with
  | EmptyString => false
  | String c s' => Chars.is_space c || has_space s'
  end.

(** The pattern ends with the group [(\w+)]. *)
Fixpoint ends_with_word (r : re) : bool :=
  match r with
  | Grp Words => true
  | Seq _ b => ends_with_word b
  | _ => false
  end.

(** [c] keeps [P], in the environments [E]. *)
Definition keeps (E : env -> Prop) (P : SmartLightControlApp -> Prop)
           {A : Type} (c : Py A) : Prop :=
  forall e a, E e -> P a -> P (snd (c e a)).

Definition any_env : env -> Prop := fun _ => True.

(** Outside a session there is no recognizer and no timeout. *)
Definition session_ok (a : SmartLightControlApp) : Prop :=
  is_listening a = false -> recognizer a = None /\ listening_timeout a = None.

(** The info panel shows [current_color]. *)
Definition panel_ok (a : SmartLightControlApp) : Prop :=
  info_text (ui a) = info_panel_text (current_color a).

(** The button and the progress bar show whether the application listens. *)
Definition button_ok (a : SmartLightControlApp) : Prop :=
  btn_text (ui a) =
    (if is_listening a then "🔴 Listening... (Speak Now)" else "🎤 Start Listening") /\
  btn_color (ui a) = (if is_listening a then RED else BTN_GREEN) /\
  progress_opacity (ui a) = (if is_listening a then 1 else 0).

(** The states of the running application: Kivy calls [build] once, on the
    new application, and then the other operations. *)
Inductive running : SmartLightControlApp -> Prop :=
| running_build (e : env) : running (snd (build e new_app))
| running_op (o : op) (e : env) (a : SmartLightControlApp) :
    o <> OpBuild -> running a -> running (snd (run_op o e a)).

(** The application on the phone after a session was started and stopped
    with the button. *)
Definition stopped_app : SmartLightControlApp :=
  snd (run_op OpToggleListening phone (snd (run_op OpToggleListening phone ready_app))).

(** The infrared service can be used: [getSystemService] returns a manager
    with an emitter and neither call raises. *)
Definition ir_usable (e : env) : bool :=
  match raises e GetSystemService, consumer_ir e with
  | None, Some m =>
      match raises e HasIrEmitter with
      | None => hasIrEmitter m
      | Some _ => false
      end
  | _, _ => false
  end.

(** ** Notions for failures and for the order of processing *)

(** The identifiers of the pending clock events are older than [fresh]:
    the event that [Clock.schedule_once] creates next is a new one. *)
Definition clock_ok (a : SmartLightControlApp) : Prop :=
  forall ev, In ev (clock a) -> (ev_id ev < fresh a)%nat.





(** A phone whose transmitter is busy: [transmit] raises. *)
Definition busy_phone : env := phone_where Transmit (Exception "IR hardware busy").

(** * Properties *)

(** ** Symbolic execution and lemmas on the methods *)

Ltac py_unfold :=
  cbv beta iota zeta delta
    [run_op build on_start send_ir_code send_ir_code_try send_ir_code_except
     execute_command execute_command_try execute_command_except
     stop_listening animate_progress start_listening toggle_listening
     listening_timeout_callback process_speech process_speech_try
     process_speech_except process_speech_finally handle_recognition_error
     on_stop onResults onError onReadyForSpeech onBeginningOfSpeech
     onEndOfSpeech listener_onResults listener_onError run_callback fire
     show_status show_success show_error update_info_panel
     bind ret raise try_except try_finally get ask modify modify_ui emit
     java on_android logger_info logger_error schedule_once cancel
     set_ir_manager set_recognizer set_is_listening set_listening_timeout
     set_current_color set_ui set_clock set_fresh set_journal
     set_status set_btn set_btn_disabled set_progress_value
     set_progress_opacity set_info_text].

Ltac py_simpl :=
  cbn [fst snd negb ir_manager recognizer is_listening listening_timeout
       current_color ui clock fresh journal status_text status_color
       btn_text btn_color btn_disabled progress_value progress_opacity
       info_text platform raises consumer_ir hasIrEmitter group1
       ev_id ev_callback ev_delay] in *.

Ltac py_case :=
  match goal with
  | |- context [match ?x with _ => _ end] =>
      lazymatch x with
      | context [match _ with _ => _ end] => fail
      | _ => destruct x eqn:?
      end
  end.

Ltac py_run := py_unfold; py_simpl; repeat (py_case; py_simpl).

(** For the long methods: the records are opened first, so that every
    field is a variable and every projection computes. *)
Ltac py_expose :=
  repeat match goal with
         | a : SmartLightControlApp |- _ => destruct a
         | w : widgets |- _ => destruct w
         | e : env |- _ => destruct e
         | c : clock_event |- _ => destruct c
         end.

Ltac py_unfold_all :=
  cbv beta iota zeta delta
    [run_op build on_start send_ir_code send_ir_code_try send_ir_code_except
     execute_command execute_command_try execute_command_except
     stop_listening animate_progress start_listening toggle_listening
     listening_timeout_callback process_speech process_speech_try
     process_speech_except process_speech_finally handle_recognition_error
     on_stop onResults onError onReadyForSpeech onBeginningOfSpeech
     onEndOfSpeech listener_onResults listener_onError run_callback fire
     show_status show_success show_error update_info_panel
     bind ret raise try_except try_finally get ask modify modify_ui emit
     java on_android logger_info logger_error schedule_once cancel
     set_ir_manager set_recognizer set_is_listening set_listening_timeout
     set_current_color set_ui set_clock set_fresh set_journal
     set_status set_btn set_btn_disabled set_progress_value
     set_progress_opacity set_info_text
     fst snd negb ir_manager recognizer is_listening listening_timeout
     current_color ui clock fresh journal status_text status_color
     btn_text btn_color btn_disabled progress_value progress_opacity
     info_text platform raises consumer_ir hasIrEmitter];
  cbn [ev_id ev_callback ev_delay].

Ltac py_eval :=
  py_expose; py_unfold_all; repeat (py_case; py_expose; py_unfold_all).

(** The same, following the branches that the hypotheses choose. *)
Ltac py_rewrite :=
  repeat match goal with
         | H : ?x = _ |- context [match ?x with _ => _ end] => rewrite H; py_simpl
         end.

Ltac py_follow := py_unfold; py_simpl; py_rewrite.

(** The same for the long methods, with the records opened. *)
Ltac py_go :=
  py_expose; py_simpl; py_unfold_all;
  repeat (match goal with
          | H : ?x = _ |- context [match ?x with _ => _ end] => rewrite H
          end; py_unfold_all).

Lemma first_match_none (ps : list re) (command : string) :
  first_match ps command = None <->
  forall p, In p ps -> search p command true = None.
Proof.
  induction ps as [|q ps IH]; simpl.
  - split; [intros _ p [] | reflexivity].
  - destruct (search q command true) eqn:Hq.
    + split; [discriminate|]. intros H.
      rewrite (H q (or_introl eq_refl)) in Hq. discriminate.
    + rewrite IH. split.
      * intros H p [<-|Hp]; auto.
      * intros H p Hp. apply H. now right.
Qed.

Lemma first_match_some (ps : list re) (command : string) (m : match_obj) :
  first_match ps command = Some m ->
  exists p, In p ps /\ search p command true = Some m.
Proof.
  induction ps as [|q ps IH]; simpl; [discriminate|].
  destruct (search q command true) eqn:Hq.
  - intros [= <-]. exists q. auto.
  - intros H. destruct (IH H) as (p & Hp & Hs). exists p. auto.
Qed.

Lemma first_match_matches (g : group) (command : string) :
  first_match (COMMAND_PATTERNS g) command <> None <-> matches_group g command.
Proof.
  split.
  - destruct (first_match (COMMAND_PATTERNS g) command) eqn:H; [|congruence].
    intros _. destruct (first_match_some _ _ _ H) as (p & Hp & Hs).
    exists p. split; [assumption|congruence].
  - intros (p & Hp & Hs) H.
    rewrite first_match_none in H. apply Hs, H, Hp.
Qed.

(** [send_ir_code] never raises. *)
Lemma send_ir_code_returns (pattern : list Z) (action_text : string) (e : env) (a : SmartLightControlApp) :
  fst (send_ir_code pattern action_text e a) = Ret tt.
Proof. py_run; reflexivity. Qed.

(** What [send_ir_code] adds to the journal: the entry for the call, then
    either the transmission of [pattern[0]] and [pattern[1:]] followed by
    one log line, or no transmission at all. Nothing else of the
    application changes but the status label. *)
Lemma send_ir_code_journal (pattern : list Z) (action_text : string)
      (e : env) (a : SmartLightControlApp) :
  let a' := snd (send_ir_code pattern action_text e a) in
  (exists tail,
     journal a' = (journal a ++ SendIr pattern action_text :: tail)%list /\
     ir_tail pattern action_text tail) /\
  current_color a' = current_color a /\ same_session a a'.
Proof.
  unfold ir_tail, no_send, no_schedule, no_transmit, same_session.
  py_run; rewrite <- ?app_assoc; cbn [Datatypes.app];
    (split; [eexists; split; [reflexivity|]|repeat split; reflexivity]);
    (split; [|split]);
    try (intros; simpl; intuition discriminate);
    try (left; do 2 eexists; split; reflexivity);
    right; intros; simpl; intuition discriminate.
Qed.

(** On a phone whose emitter works, [send_ir_code] transmits element 0 as
    the frequency and the rest as the signal. *)
Lemma send_ir_code_transmits (f : Z) (s : list Z) (action_text : string) (e : env) (a : SmartLightControlApp) :
  platform e = Android -> ir_manager a = Some (IrService true) ->
  raises e HasIrEmitter = None -> raises e Transmit = None ->
  journal (snd (send_ir_code (f :: s) action_text e a)) =
  (journal a ++ [SendIr (f :: s) action_text; IrTransmit f s;
                 Log Info ("IR signal sent: " ++ action_text)])%list.
Proof.
  intros Hp Hm Hh Ht. py_follow. rewrite <- !app_assoc. reflexivity.
Qed.

Lemma not_matches_group (g : group) (command : string) :
  ~ matches_group g command -> first_match (COMMAND_PATTERNS g) command = None.
Proof.
  intros H. destruct (first_match (COMMAND_PATTERNS g) command) eqn:Hm; [|reflexivity].
  exfalso. apply H, first_match_matches. congruence.
Qed.

Lemma color_map_codes (color : string) (code : list Z) :
  dict_get COLOR_MAP color = Some code -> exists s, code = 38000 :: s.
Proof.
  unfold COLOR_MAP. cbn [dict_get].
  repeat (destruct (String.eqb _ color); [intros [= <-]; eexists; reflexivity|]).
  discriminate.
Qed.

Lemma none_not_matches (g : group) (command : string) :
  first_match (COMMAND_PATTERNS g) command = None -> ~ matches_group g command.
Proof. intros H Hm. apply first_match_matches in Hm. contradiction. Qed.

Lemma some_matches (g : group) (command : string) (m : match_obj) :
  first_match (COMMAND_PATTERNS g) command = Some m -> matches_group g command.
Proof. intros H. apply first_match_matches. congruence. Qed.

Lemma same_session_refl (a : SmartLightControlApp) : same_session a a.
Proof. repeat split. Qed.

Lemma same_session_trans (a b c : SmartLightControlApp) :
  same_session a b -> same_session b c -> same_session a c.
Proof.
  unfold same_session. intros (?&?&?&?&?&?) (?&?&?&?&?&?).
  repeat split; congruence.
Qed.

(** What one call of [execute_command] does: it returns [True] after
    exactly one call of [send_ir_code], with the list the classification
    selects, or [False] without any; the session is left alone. *)
Lemma execute_command_effect (command : string) (e : env) (a : SmartLightControlApp) :
  let r := fst (execute_command command e a) in
  let a' := snd (execute_command command e a) in
  same_session a a' /\ (color_ok a -> color_ok a') /\
  ((r = Ret true /\
    exists p text tail,
      classified command p text /\
      journal a' = (journal a ++ SendIr p text :: tail)%list /\
      ir_tail p text tail) \/
   (r = Ret false /\ current_color a' = current_color a /\
    exists d, journal a' = (journal a ++ d)%list /\ quiet_events d)).
Proof.
  unfold quiet_events, execute_command, execute_command_try, try_except.
  destruct (first_match (COMMAND_PATTERNS On) command) eqn:Hon.
  { unfold bind, ret.
    pose proof (send_ir_code_returns ON_CODE "Turning lights ON" e a) as Hr.
    destruct (send_ir_code_journal ON_CODE "Turning lights ON" e a)
      as ((tail & Hj & Ht) & Hc & Hs).
    destruct (send_ir_code ON_CODE "Turning lights ON" e a) as [r1 a1].
    cbn [fst snd] in *. subst r1. cbn [fst snd].
    split; [exact Hs|]. split; [unfold color_ok; now rewrite Hc|].
    left. split; [reflexivity|]. exists ON_CODE, "Turning lights ON", tail.
    split; [|split; assumption].
    left. split; [eapply some_matches; eassumption|split; reflexivity]. }
  destruct (first_match (COMMAND_PATTERNS Off) command) eqn:Hoff.
  { unfold bind, ret.
    pose proof (send_ir_code_returns OFF_CODE "Turning lights OFF" e a) as Hr.
    destruct (send_ir_code_journal OFF_CODE "Turning lights OFF" e a)
      as ((tail & Hj & Ht) & Hc & Hs).
    destruct (send_ir_code OFF_CODE "Turning lights OFF" e a) as [r1 a1].
    cbn [fst snd] in *. subst r1. cbn [fst snd].
    split; [exact Hs|]. split; [unfold color_ok; now rewrite Hc|].
    left. split; [reflexivity|]. exists OFF_CODE, "Turning lights OFF", tail.
    split; [|split; assumption].
    right. left. split; [now apply none_not_matches|].
    split; [eapply some_matches; eassumption|split; reflexivity]. }
  assert (Hquiet : forall d : list event,
             (forall ev, In ev d -> exists l t, ev = Log l t) ->
             no_send d /\ no_transmit d /\ no_schedule d).
  { intros d Hd. unfold no_send, no_transmit, no_schedule.
    repeat split; intros; intro Hin;
      destruct (Hd _ Hin) as (? & ? & Hev); discriminate. }
  destruct (first_match (COMMAND_PATTERNS Color) command) as [[[word|]]|] eqn:Hcol;
    cbn [group1].
  - cbv zeta. destruct (dict_get COLOR_MAP (Str.lower word)) as [code|] eqn:Hget.
    + cbv beta iota zeta delta [bind ret modify update_info_panel get modify_ui].
      change (set_ui _ (set_current_color (Str.lower word) a))
        with (with_color (Str.lower word) a).
      set (text := "Changing to " ++ Str.upper (Str.lower word)).
      pose proof (send_ir_code_returns code text e (with_color (Str.lower word) a)) as Hr.
      destruct (send_ir_code_journal code text e (with_color (Str.lower word) a))
        as ((tail & Hj & Ht) & Hc & Hs).
      destruct (send_ir_code code text e (with_color (Str.lower word) a)) as [r1 a1].
      cbn [fst snd] in *. subst r1. cbn [fst snd].
      split; [exact Hs|]. split.
      { intros _. unfold color_ok, dict_mem. rewrite Hc. cbn [current_color with_color set_ui set_current_color].
        now rewrite Hget. }
      left. split; [reflexivity|]. exists code, text, tail.
      split; [|split; assumption].
      right. right. split; [now apply none_not_matches|].
      split; [now apply none_not_matches|].
      exists (Match (Some word)), word. repeat split; assumption.
    + py_run. split; [unfold same_session; py_simpl; repeat split|]. split; [trivial|].
      right. split; [reflexivity|]. split; [reflexivity|].
      exists []. rewrite app_nil_r. split; [reflexivity|].
      apply Hquiet. intros ev [].
  - py_run. split; [unfold same_session; py_simpl; repeat split|]. split; [trivial|].
    right. split; [reflexivity|]. split; [reflexivity|].
    eexists. rewrite <- app_assoc. split; [reflexivity|].
    apply Hquiet. cbn [Datatypes.app]. intros ev [<-|[<-|[]]]; eauto.
  - py_run. split; [unfold same_session; py_simpl; repeat split|]. split; [trivial|].
    right. split; [reflexivity|]. split; [reflexivity|].
    exists []. rewrite app_nil_r. split; [reflexivity|].
    apply Hquiet. intros ev [].
Qed.

Lemma quiet_nil : quiet_events [].
Proof.
  unfold quiet_events, no_send, no_transmit, no_schedule.
  repeat split; intros; intros [].
Qed.

Lemma quiet_app (d1 d2 : list event) :
  quiet_events d1 -> quiet_events d2 -> quiet_events (d1 ++ d2).
Proof.
  unfold quiet_events, no_send, no_transmit, no_schedule.
  intros (A1 & B1 & C1) (A2 & B2 & C2).
  repeat split; intros; intros Hin; apply in_app_or in Hin;
    destruct Hin as [Hin|Hin]; revert Hin;
    first [apply A1|apply A2|apply B1|apply B2|apply C1|apply C2].
Qed.

Lemma quiet_log (l : level) (t : string) : quiet_events [Log l t].
Proof.
  unfold quiet_events, no_send, no_transmit, no_schedule.
  repeat split; intros; intros [H|[]]; discriminate.
Qed.

(** What the loop of [process_speech] does: the commands are tried in
    order; the first that [execute_command] accepts ends the loop, and is
    the only one for which [send_ir_code] is called. *)
Lemma try_commands_effect (matches : list string) (e : env) (a : SmartLightControlApp) :
  let r := fst (try_commands matches e a) in
  let a' := snd (try_commands matches e a) in
  same_session a a' /\ (color_ok a -> color_ok a') /\
  ((r = Ret true /\
    exists d0 m p text tail,
      In m matches /\
      classified (Str.strip (Str.lower m)) p text /\
      journal a' =
        (journal a ++ d0 ++
         Log Info ("Processing command: '" ++ Str.strip (Str.lower m) ++ "'")
         :: SendIr p text :: tail)%list /\
      quiet_events d0 /\ ir_tail p text tail) \/
   (r = Ret false /\
    exists d, journal a' = (journal a ++ d)%list /\ quiet_events d)).
Proof.
  revert a. induction matches as [|m rest IH]; intros a.
  - cbn. split; [apply same_session_refl|]. split; [trivial|].
    right. split; [reflexivity|]. exists []. rewrite app_nil_r.
    split; [reflexivity|apply quiet_nil].
  - cbn [try_commands].
    cbv beta iota zeta delta [bind logger_info emit modify].
    set (command := Str.strip (Str.lower m)).
    set (line := Log Info ("Processing command: '" ++ command ++ "'")).
    set (a0 := set_journal (journal a ++ [line]) a).
    assert (Hs0 : same_session a a0) by (unfold same_session; repeat split).
    assert (Hc0 : color_ok a -> color_ok a0) by trivial.
    destruct (execute_command_effect command e a0) as (Hs & Hc & Hcase).
    destruct (execute_command command e a0) as [r1 a1]. cbn [fst snd] in *.
    destruct Hcase as [(-> & p & text & tail & Hcl & Hj & Ht)
                      |(-> & Hcc & d & Hj & Hd)].
    + unfold ret. cbn [fst snd]. split; [exact (same_session_trans _ _ _ Hs0 Hs)|].
      split; [auto|]. left. split; [reflexivity|].
      exists [], m, p, text, tail. split; [now left|]. split; [exact Hcl|].
      split; [|split; [apply quiet_nil|exact Ht]].
      rewrite Hj. unfold a0. cbn [journal set_journal].
      rewrite <- app_assoc. reflexivity.
    + destruct (IH a1) as (Hs1 & Hc1 & Hcase1).
      destruct (try_commands rest e a1) as [r2 a2]. cbn [fst snd] in *.
      split; [exact (same_session_trans _ _ _ (same_session_trans _ _ _ Hs0 Hs) Hs1)|].
      split; [auto|].
      assert (Hj0 : journal a1 = (journal a ++ line :: d)%list).
      { rewrite Hj. unfold a0. cbn [journal set_journal].
        rewrite <- app_assoc. reflexivity. }
      assert (Hq : quiet_events (line :: d)).
      { apply (quiet_app [line] d); [apply quiet_log|exact Hd]. }
      destruct Hcase1 as [(-> & d0 & m' & p & text & tail & Hin & Hcl & Hj1 & Hd0 & Ht)
                         |(-> & d' & Hj1 & Hd')].
      * left. split; [reflexivity|].
        exists ((line :: d) ++ d0)%list, m', p, text, tail.
        split; [now right|]. split; [exact Hcl|].
        split; [|split; [now apply quiet_app|exact Ht]].
        rewrite Hj1, Hj0. rewrite <- !app_assoc. reflexivity.
      * right. split; [reflexivity|].
        exists ((line :: d) ++ d')%list.
        split; [|now apply quiet_app].
        rewrite Hj1, Hj0. rewrite <- !app_assoc. reflexivity.
Qed.

(** A journal written out holds no call of [send_ir_code], no transmission
    and no scheduled event unless one is seen in it. *)
Ltac quiet_tac :=
  unfold quiet_events, no_send, no_transmit, no_schedule;
  repeat split; intros; cbn [In]; intuition discriminate.

(** What [stop_listening] does besides the session itself. *)
Lemma stop_listening_effect (e : env) (a : SmartLightControlApp) :
  let a' := snd (stop_listening e a) in
  fst (stop_listening e a) = Ret tt /\
  current_color a' = current_color a /\ ir_manager a' = ir_manager a /\
  (is_listening a = false -> is_listening a' = false) /\
  (length (clock a') <= length (clock a))%nat /\
  exists d, journal a' = (journal a ++ d)%list /\ quiet_events d.
Proof.
  py_run; (split; [reflexivity|]); (split; [reflexivity|]);
    (split; [reflexivity|]); (split; [auto|]);
    (split; [try apply filter_length_le; auto|]);
    rewrite <- ?app_assoc; cbn [Datatypes.app];
    try (eexists; split; [reflexivity|quiet_tac]);
    exists []; rewrite app_nil_r; split; [reflexivity|apply quiet_nil].
Qed.

(** What the [try] and [except] blocks of [process_speech] do. *)
Lemma process_speech_try_effect (results : option (list string))
      (e : env) (a : SmartLightControlApp) :
  let c := try_except (process_speech_try results) process_speech_except in
  let a' := snd (c e a) in
  fst (c e a) = Ret tt /\
  (color_ok a -> color_ok a') /\ ir_manager a' = ir_manager a /\
  (is_listening a = false -> is_listening a' = false) /\
  (length (clock a') <= length (clock a))%nat /\
  exists d0 rest,
    journal a' = (journal a ++ d0 ++ rest)%list /\ quiet_events d0 /\
    (rest = [] \/
     exists matches m p text tail,
       results = Some matches /\ In m matches /\
       classified (Str.strip (Str.lower m)) p text /\
       rest = Log Info ("Processing command: '" ++ Str.strip (Str.lower m) ++ "'")
                :: SendIr p text :: tail /\
       ir_tail p text tail).
Proof.
  assert (Hnone : forall a0 : SmartLightControlApp,
    color_ok a0 = color_ok a -> ir_manager a0 = ir_manager a ->
    is_listening a0 = is_listening a -> clock a0 = clock a ->
    journal a0 = journal a ->
    let a' := snd (stop_listening e a0) in
    fst (stop_listening e a0) = Ret tt /\
    (color_ok a -> color_ok a') /\ ir_manager a' = ir_manager a /\
    (is_listening a = false -> is_listening a' = false) /\
    (length (clock a') <= length (clock a))%nat /\
    exists d0 rest,
      journal a' = (journal a ++ d0 ++ rest)%list /\ quiet_events d0 /\
      (rest = [] \/
       exists matches m p text tail,
         results = Some matches /\ In m matches /\
         classified (Str.strip (Str.lower m)) p text /\
         rest = Log Info ("Processing command: '" ++ Str.strip (Str.lower m) ++ "'")
                  :: SendIr p text :: tail /\
         ir_tail p text tail)).
  { intros a0 E1 E2 E3 E4 E5.
    destruct (stop_listening_effect e a0) as (Hr & Hc & Hm & Hl & Hk & d & Hj & Hd).
    destruct (stop_listening e a0) as [r a1]. cbn [fst snd] in *. subst r.
    split; [reflexivity|].
    split; [rewrite <- E1; unfold color_ok; now rewrite Hc|].
    split; [congruence|]. split; [rewrite <- E3; exact Hl|].
    split; [rewrite <- E4; exact Hk|].
    exists d, []. rewrite app_nil_r, <- E5. auto. }
  cbv zeta. unfold process_speech_try, try_except, on_android.
  cbv beta iota zeta delta [bind ask ret java negb].
  destruct (platform e).
  2:{ cbn [fst snd]. repeat (split; [auto|]).
      exists [], []. rewrite app_nil_r. split; [reflexivity|].
      split; [apply quiet_nil|now left]. }
  destruct (raises e GetStringArrayList) as [x|].
  { py_run. repeat (split; [auto|]). rewrite <- ?app_assoc. cbn [Datatypes.app].
    eexists _, []. rewrite app_nil_r. split; [reflexivity|].
    split; [quiet_tac|now left]. }
  destruct results as [[|m l]|].
  - cbv beta iota zeta delta [show_status modify_ui modify].
    match goal with
    | |- context [stop_listening e ?a0] =>
        destruct (Hnone a0 eq_refl eq_refl eq_refl eq_refl eq_refl) as (Hr & H);
        destruct (stop_listening e a0) as [r a1]
    end.
    cbn [fst snd] in *. subst r. exact (conj eq_refl H).
  - destruct (try_commands_effect (m :: l) e a) as (Hs & Hc & Hcase).
    destruct (try_commands (m :: l) e a) as [r a1]. cbn [fst snd] in *.
    destruct Hs as (_ & Hl & _ & Hk & _ & Hm).
    destruct Hcase as [(-> & d0 & m' & p & text & tail & Hin & Hcl & Hj & Hd0 & Ht)
                      |(-> & d & Hj & Hd)]; py_run.
    + repeat (split; [first [reflexivity|assumption|congruence|rewrite Hk; auto]|]).
      exists d0, (Log Info ("Processing command: '" ++ Str.strip (Str.lower m') ++ "'")
                    :: SendIr p text :: tail).
      split; [exact Hj|]. split; [exact Hd0|]. right.
      exists (m :: l), m', p, text, tail. auto.
    + repeat (split; [first [reflexivity|assumption|congruence|rewrite Hk; auto]|]).
      exists d, []. rewrite app_nil_r. auto.
  - cbv beta iota zeta delta [show_status modify_ui modify].
    match goal with
    | |- context [stop_listening e ?a0] =>
        destruct (Hnone a0 eq_refl eq_refl eq_refl eq_refl eq_refl) as (Hr & H);
        destruct (stop_listening e a0) as [r a1]
    end.
    cbn [fst snd] in *. subst r. exact (conj eq_refl H).
Qed.

(** What [process_speech] does, its [finally] block included. *)
Lemma process_speech_effect (results : option (list string))
      (e : env) (a : SmartLightControlApp) :
  let a' := snd (process_speech results e a) in
  fst (process_speech results e a) = Ret tt /\
  (color_ok a -> color_ok a') /\
  (is_listening a = false -> is_listening a' = false) /\
  (length (clock a') <= length (clock a) + 1)%nat /\
  exists d0 rest id,
    journal a' = (journal a ++ d0 ++ rest ++ [Scheduled id CbStopListening 1000])%list /\
    In (ClockEvent id CbStopListening 1000) (clock a') /\
    quiet_events d0 /\
    (rest = [] \/
     exists matches m p text tail,
       results = Some matches /\ In m matches /\
       classified (Str.strip (Str.lower m)) p text /\
       rest = Log Info ("Processing command: '" ++ Str.strip (Str.lower m) ++ "'")
                :: SendIr p text :: tail /\
       ir_tail p text tail).
Proof.
  unfold process_speech, try_finally.
  destruct (process_speech_try_effect results e a)
    as (Hr & Hc & _ & Hl & Hk & d0 & rest & Hj & Hd0 & Hrest).
  destruct (try_except (process_speech_try results) process_speech_except e a)
    as [r a1].
  cbn [fst snd] in *. subst r. py_run.
  split; [reflexivity|]. split; [exact Hc|]. split; [exact Hl|].
  split; [rewrite length_app; cbn [length]; lia|].
  exists d0, rest, (fresh a1).
  split; [rewrite Hj, <- !app_assoc; reflexivity|].
  split; [apply in_or_app; right; now left|].
  split; assumption.
Qed.

Lemma classified_ir_code (command : string) (p : list Z) (text : string) :
  classified command p text -> ir_code p.
Proof.
  intros [(_ & -> & _)|[(_ & _ & -> & _)|(_ & _ & m & word & _ & _ & H & _)]].
  - now left.
  - right. now left.
  - right. right. now exists (Str.lower word).
Qed.

(** The listener hands the results to [process_speech], whose own handlers
    leave nothing for the handler of [onResults]. *)
Lemma listener_onResults_eq (results : option (list string))
      (e : env) (a : SmartLightControlApp) :
  listener_onResults results e a = process_speech results e a.
Proof.
  unfold listener_onResults, onResults, try_except.
  destruct (process_speech_effect results e a) as (Hr & _).
  destruct (process_speech results e a) as [r a1]. cbn [fst] in Hr.
  now subst r.
Qed.

(** The operations that run the loop of [process_speech] are set apart:
    [tac_speech] is for them, [tac_command] for [execute_command] and
    [tac_other] for the others. *)
Ltac by_op tac_speech tac_command tac_other :=
  cbn [run_op];
  lazymatch goal with
  | |- context [listener_onResults _ _ _] =>
      rewrite listener_onResults_eq; tac_speech
  | |- context [process_speech _ _ _] => tac_speech
  | |- context [execute_command _] => tac_command
  | _ => tac_other
  end.


(** Every operation keeps [current_color] a key of [COLOR_MAP]. *)
Lemma run_op_color_ok (o : op) (e : env) (a : SmartLightControlApp) :
  color_ok a -> color_ok (snd (run_op o e a)).
Proof.
  destruct o;
    by_op ltac:(exact (proj1 (proj2 (process_speech_effect results e a))))
          ltac:(unfold bind;
                destruct (execute_command_effect command e a) as (_ & Hc & _);
                destruct (execute_command command e a) as [[b|x] a1]; exact Hc)
          ltac:(unfold color_ok; py_eval; trivial).
Qed.

(** Only [start_listening], which [toggle_listening] calls, raises the flag
    [is_listening]. *)
Lemma run_op_is_listening (o : op) (e : env) (a : SmartLightControlApp) :
  is_listening a = false -> is_listening (snd (run_op o e a)) = true ->
  o = OpStartListening \/ o = OpToggleListening.
Proof.
  intros Hf.
  destruct o; try (intros _; auto; fail);
    by_op ltac:(rewrite (proj1 (proj2 (proj2 (process_speech_effect results e a))) Hf);
                discriminate)
          ltac:(unfold bind, ret;
                destruct (execute_command_effect command e a) as ((_ & Hl & _) & _);
                destruct (execute_command command e a) as [[b|x] a1];
                cbn [fst snd] in *; rewrite Hl, Hf; discriminate)
          ltac:(revert Hf; py_eval; congruence).
Qed.

Ltac length_tac :=
  rewrite ?length_app in *; cbn [length] in *;
  repeat match goal with
         | |- context [length (filter ?f ?l)] =>
             let n := fresh "n" in
             pose proof (filter_length_le f l);
             set (n := length (filter f l)) in *; clearbody n
         | _ : context [length (filter ?f ?l)] |- _ =>
             let n := fresh "n" in
             pose proof (filter_length_le f l);
             set (n := length (filter f l)) in *; clearbody n
         end;
  rewrite ?length_app in *; cbn [length] in *; lia.

(** No operation leaves more than two more events pending than it found,
    and only [start_listening] (and [toggle_listening], which calls it) more
    than one. *)
Lemma run_op_clock (o : op) (e : env) (a : SmartLightControlApp) :
  (length (clock (snd (run_op o e a))) <= length (clock a) + 2)%nat /\
  (o <> OpStartListening -> o <> OpToggleListening ->
   length (clock (snd (run_op o e a))) <= length (clock a) + 1)%nat.
Proof.
  destruct o; (split; [|try (intros H1 H2; congruence); intros _ _]);
    by_op ltac:(pose proof (proj1 (proj2 (proj2 (proj2 (process_speech_effect results e a)))));
                cbv zeta in *; lia)
          ltac:(unfold bind, ret;
                destruct (execute_command_effect command e a) as ((_ & _ & _ & Hk & _) & _);
                destruct (execute_command command e a) as [[b|x] a1];
                cbn [fst snd] in *; rewrite Hk; lia)
          ltac:(py_eval; length_tac).
Qed.

Ltac in_journal_tac :=
  rewrite ?in_app_iff; cbn [In]; intuition discriminate.

(** The lists that the operations hand to [send_ir_code] are the constant
    ones. *)
Lemma run_op_sends (o : op) (e : env) (a : SmartLightControlApp)
      (p : list Z) (t : string) :
  (forall p' t', o <> OpSendIrCode p' t') ->
  In (SendIr p t) (journal (snd (run_op o e a))) ->
  In (SendIr p t) (journal a) \/ ir_code p.
Proof.
  intros Ho.
  destruct o; try (exfalso; eapply Ho; reflexivity);
    by_op ltac:(destruct (process_speech_effect results e a)
                  as (_ & _ & _ & _ & d0 & rest & id & Hj & _ & (Hd0 & _) & Hrest);
                cbv zeta in Hj; rewrite Hj, !in_app_iff;
                intros [H|[H|[H|[H|[]]]]];
                [now left|now apply Hd0 in H| |discriminate];
                destruct Hrest as [->|(ms & m & p0 & t0 & tail & _ & _ & Hcl & -> & Htail & _)];
                [destruct H|];
                destruct H as [H|[H|H]];
                [discriminate
                |injection H as <- <-; right; eapply classified_ir_code; eassumption
                |now apply Htail in H])
          ltac:(unfold bind, ret;
                destruct (execute_command_effect command e a) as (_ & _ & Hcase);
                destruct (execute_command command e a) as [[b|x] a1];
                cbn [fst snd] in *;
                (destruct Hcase as [(_ & p0 & t0 & tail & Hcl & Hj & Htail & _)
                                   |(_ & _ & d & Hj & Hd & _)];
                 rewrite Hj, in_app_iff;
                 [intros [H|[H|H]];
                  [now left
                  |injection H as <- <-; right; eapply classified_ir_code; eassumption
                  |now apply Htail in H]
                 |intros [H|H]; [now left|now apply Hd in H]]))
          ltac:(py_eval; in_journal_tac).
Qed.

Lemma none_not_matches_b (g : group) (command : string) :
  (match first_match (COMMAND_PATTERNS g) command with
   | Some _ => false
   | None => true
   end) = true -> ~ matches_group g command.
Proof.
  intros H. apply none_not_matches.
  destruct (first_match (COMMAND_PATTERNS g) command); [discriminate|reflexivity].
Qed.

(** A match is always what the continuation returned. *)
Lemma many_words_result (s : string) (k : string -> option match_obj) (m : match_obj) :
  many_words s k = Some m -> exists t, k t = Some m.
Proof.
  induction s as [|c s IH]; cbn [many_words].
  - eauto.
  - destruct (Chars.is_word c); [|eauto].
    destruct (many_words s k) eqn:Hm; [intros [= <-]; auto|eauto].
Qed.

Lemma run_result (ignorecase : bool) (r : re) :
  forall s g k m,
    run ignorecase r s g k = Some m -> exists t g', k t g' = Some m.
Proof.
  induction r as [|p| |a IHa b IHb|a IHa|a IHa]; intros s g k m; cbn [run].
  - eauto.
  - destruct s as [|c s]; [discriminate|].
    destruct (Chars.eq_char ignorecase p c); [eauto|discriminate].
  - destruct s as [|c s]; [discriminate|].
    destruct (Chars.is_word c); [|discriminate].
    intros H. apply many_words_result in H. destruct H as (t & H). eauto.
  - intros H. apply IHa in H. destruct H as (t & g' & H).
    apply IHb in H. exact H.
  - destruct (run ignorecase a s g k) eqn:Ha; [|eauto].
    intros [= <-]. eapply IHa. eassumption.
  - intros H. apply IHa in H. destruct H as (t & g' & H). eauto.
Qed.






(** ** Properties kept by the operations *)

(** The value of [execute_command], whatever the environment and the
    state. *)
Lemma execute_command_accepts (command : string) (e : env) (a : SmartLightControlApp) :
  fst (execute_command command e a) = Ret (accepts command).
Proof.
  assert (Hsend : forall p t e a (b : bool),
             fst (let (o, a') := send_ir_code p t e a in
                  match o with
                  | Ret _ => (Ret b, a')
                  | Raise x => (Raise x, a')
                  end) = Ret b).
  { intros p t e0 a0 b. pose proof (send_ir_code_returns p t e0 a0) as Hr.
    destruct (send_ir_code p t e0 a0) as [r a1]. cbn [fst] in Hr. now subst r. }
  unfold accepts, execute_command, execute_command_try, try_except, dict_mem.
  destruct (first_match (COMMAND_PATTERNS On) command).
  { unfold bind, ret.
    pose proof (Hsend ON_CODE "Turning lights ON" e a true) as H.
    destruct (send_ir_code ON_CODE "Turning lights ON" e a) as [[|] ?];
      first [exact H|discriminate H]. }
  destruct (first_match (COMMAND_PATTERNS Off) command).
  { unfold bind, ret.
    pose proof (Hsend OFF_CODE "Turning lights OFF" e a true) as H.
    destruct (send_ir_code OFF_CODE "Turning lights OFF" e a) as [[|] ?];
      first [exact H|discriminate H]. }
  destruct (first_match (COMMAND_PATTERNS Color) command) as [[[word|]]|];
    cbn [group1]; [|reflexivity|reflexivity].
  cbv zeta. destruct (dict_get COLOR_MAP (Str.lower word)) as [code|]; [|reflexivity].
  cbv beta iota zeta delta [bind ret modify update_info_panel get modify_ui].
  match goal with
  | |- context [send_ir_code ?p ?t e ?a0] =>
      pose proof (Hsend p t e a0 true) as H;
      destruct (send_ir_code p t e a0) as [[|] ?]; first [exact H|discriminate H]
  end.
Qed.

Lemma try_commands_returns (matches : list string) (e : env) (a : SmartLightControlApp) :
  exists b, fst (try_commands matches e a) = Ret b.
Proof.
  destruct (try_commands_effect matches e a) as (_ & _ & [(H & _)|(H & _)]); eauto.
Qed.

Section Keeps.

Variable E : env -> Prop.
Variable P : SmartLightControlApp -> Prop.

Hypothesis P_log : forall l t a, P a -> P (set_journal (journal a ++ [Log l t]) a).
Hypothesis P_status : forall s c a, P a -> P (set_ui (set_status s c (ui a)) a).
Hypothesis P_schedule : forall cb d a,
  P a -> P (set_journal (journal a ++ [Scheduled (fresh a) cb d])
              (set_fresh (S (fresh a))
                 (set_clock (clock a ++ [ClockEvent (fresh a) cb d]) a))).
Hypothesis P_stop : keeps E P stop_listening.
Hypothesis P_command : forall command, keeps E P (execute_command command).

Lemma try_commands_keeps (matches : list string) : keeps E P (try_commands matches).
Proof.
  induction matches as [|m rest IH]; intros e a He Pa; [exact Pa|].
  cbn [try_commands]. cbv beta iota zeta delta [bind logger_info emit modify].
  match goal with
  | |- context [execute_command ?c e ?a0] =>
      pose proof (P_command c e a0 He (P_log _ _ _ Pa)) as Hc;
      destruct (execute_command c e a0) as [[[|]|x] a1]; cbn [snd] in Hc
  end.
  - exact Hc.
  - apply IH; assumption.
  - exact Hc.
Qed.

(** The [try] and [except] blocks of [process_speech]. *)
Lemma process_speech_body_keeps (results : option (list string)) :
  keeps E P (try_except (process_speech_try results) process_speech_except).
Proof.
  intros e a He Pa.
  unfold try_except, process_speech_try, on_android.
  cbv beta iota zeta delta [bind ask ret java negb].
  destruct (platform e); [|exact Pa].
  destruct (raises e GetStringArrayList) as [x|].
  { cbv beta iota zeta delta [process_speech_except bind logger_error show_error
                                emit modify modify_ui].
    cbn [snd ui set_journal journal]. apply P_log.
    apply (P_status _ _ (set_journal _ a)). apply P_log. exact Pa. }
  assert (Hnone : P (snd (let (o, a') :=
                            (show_status "No speech detected - please try again" ;;
                             stop_listening) e a in
                          match o with
                          | Ret x => (Ret x, a')
                          | Raise x => process_speech_except x e a'
                          end))).
  { cbv beta iota zeta delta [bind show_status modify_ui modify].
    match goal with
    | |- context [stop_listening e ?a0] =>
        pose proof (P_stop e a0 He (P_status _ _ _ Pa)) as Hs;
        pose proof (proj1 (stop_listening_effect e a0)) as Hr;
        destruct (stop_listening e a0) as [r a1]
    end.
    cbn [fst snd] in *. subst r. exact Hs. }
  destruct results as [[|m l]|]; [exact Hnone| |exact Hnone].
  pose proof (try_commands_keeps (m :: l) e a He Pa) as Hk.
  destruct (try_commands_returns (m :: l) e a) as (b & Hb).
  destruct (try_commands (m :: l) e a) as [r a1]. cbn [fst snd] in *. subst r.
  destruct b; cbn [negb snd]; [exact Hk|].
  cbv beta iota zeta delta [show_status modify_ui modify]. cbn [snd].
  apply P_status. exact Hk.
Qed.

Lemma process_speech_keeps (results : option (list string)) :
  keeps E P (process_speech results).
Proof.
  intros e a He Pa. unfold process_speech, try_finally.
  pose proof (process_speech_body_keeps results e a He Pa) as Hbody.
  destruct (try_except (process_speech_try results) process_speech_except e a)
    as [r a1]. cbn [snd] in Hbody.
  cbv beta iota zeta delta [process_speech_finally bind schedule_once get modify emit ret].
  cbn [snd fresh clock journal set_clock set_fresh set_journal].
  exact (P_schedule CbStopListening 1000 a1 Hbody).
Qed.

End Keeps.

(** To show that an operation keeps a property of the state, the state it
    ends in is named, so that the operation is evaluated once. *)
Lemma by_end_state {A : Type} (P : SmartLightControlApp -> Prop) (c : Py A)
      (e : env) (a : SmartLightControlApp) :
  (forall r a', c e a = (r, a') -> P a -> P a') -> P a -> P (snd (c e a)).
Proof. intros H Pa. destruct (c e a) as [r a'] eqn:Hc. exact (H r a' eq_refl Pa). Qed.

(** ** The clock and the scheduled stop *)




Lemma clock_ok_log (l : level) (t : string) (a : SmartLightControlApp) :
  clock_ok a -> clock_ok (set_journal (journal a ++ [Log l t]) a).
Proof. intros H. exact H. Qed.

Lemma clock_ok_status (s : string) (c : rgba) (a : SmartLightControlApp) :
  clock_ok a -> clock_ok (set_ui (set_status s c (ui a)) a).
Proof. intros H. exact H. Qed.

Lemma clock_ok_schedule (cb : timer_callback) (d : Z) (a : SmartLightControlApp) :
  clock_ok a ->
  clock_ok (set_journal (journal a ++ [Scheduled (fresh a) cb d])
              (set_fresh (S (fresh a))
                 (set_clock (clock a ++ [ClockEvent (fresh a) cb d]) a))).
Proof.
  intros H ev Hin. cbn [clock fresh set_journal set_fresh set_clock] in *.
  apply in_app_or in Hin. destruct Hin as [Hin|[<-|[]]].
  - specialize (H ev Hin). lia.
  - cbn [ev_id]. lia.
Qed.

Ltac open_clock := apply by_end_state; unfold clock_ok; py_eval.

Ltac close_clock :=
  let H := fresh "H" in
  let Hc := fresh "Hc" in
  let Hin := fresh "Hin" in
  intros ? ? H; injection H as <- <-; cbv beta iota; intros Hc ? Hin;
  repeat match type of Hin with
         | In _ (filter _ _) => apply filter_In in Hin; destruct Hin as (Hin & _)
         | In _ (_ ++ _) => apply in_app_or in Hin; destruct Hin as [Hin|Hin]
         | In _ (_ :: _) => destruct Hin as [Hin|Hin]
         | In _ [] => destruct Hin
         end;
  first [ subst; cbn [ev_id]; lia
        | specialize (Hc _ Hin); lia ].

Lemma run_op_clock_ok (o : op) (e : env) (a : SmartLightControlApp) :
  clock_ok a -> clock_ok (snd (run_op o e a)).
Proof.
  destruct o;
    by_op ltac:(apply (process_speech_keeps any_env clock_ok);
                [intros; now apply clock_ok_log
                |intros; now apply clock_ok_status
                |intros; now apply clock_ok_schedule
                |intros e0 a0 _; open_clock; close_clock
                |intros c e0 a0 _; open_clock; close_clock
                |exact I])
          ltac:(open_clock; close_clock)
          ltac:(open_clock; close_clock).
Qed.

(** Every state the application can be in has a fresh identifier for the
    next clock event. *)
Lemma reachable_clock_ok (a : SmartLightControlApp) : reachable a -> clock_ok a.
Proof.
  induction 1 as [|o e a _ IH]; [intros ev []|now apply run_op_clock_ok].
Qed.

(** ** The order of processing, and the failures *)










(** ** Examples *)

(** The order on an example: two candidates, the second one accepted. *)
Example process_speech_example :
  journal (snd (process_speech (Some ["  Make it MAGENTA "; "please Switch to Pink"])
                               phone ready_app)) =
  (journal ready_app ++
   [ Log Info "Processing command: 'make it magenta'";
     Log Info "Processing command: 'please switch to pink'";
     SendIr [38000; 9000; 4500; 1687; 562; 562; 1687] "Changing to PINK";
     IrTransmit 38000 [9000; 4500; 1687; 562; 562; 1687];
     Log Info "IR signal sent: Changing to PINK";
     Scheduled 0 CbStopListening 1000 ])%list.
Proof. vm_compute. reflexivity. Qed.

(** The commands [change to c], [set to c], [set color to c], [make it c]
    and [switch to c], for every key [c]: no pattern of the groups on and
    off matches them, and the first colour pattern that does captures [c]. *)
Lemma color_commands_of_keys :
  forall color, In color (dict_keys COLOR_MAP) ->
  forall command,
    In command ["change to " ++ color; "set to " ++ color;
                "set color to " ++ color; "make it " ++ color;
                "switch to " ++ color] ->
    first_match (COMMAND_PATTERNS On) command = None /\
    first_match (COMMAND_PATTERNS Off) command = None /\
    first_match (COMMAND_PATTERNS Color) command = Some (Match (Some color)) /\
    Str.lower color = color.
Proof.
  intros color Hc. cbn in Hc.
  repeat (destruct Hc as [<-|Hc];
          [intros command Hin; cbn in Hin;
           repeat (destruct Hin as [<-|Hin]; [vm_compute; repeat split|]);
           contradiction|]).
  contradiction.
Qed.

Example search_examples :
  search (lit "daddy" +++ Opt (Chr "'") +++ lit "s home")%re "Daddys HOME!" true
    = Some (Match None) /\
  search (lit "light" +++ Opt (Chr "s") +++ lit " on")%re "the light on" true
    = Some (Match None) /\
  search (lit "light" +++ Opt (Chr "s") +++ lit " on")%re "lightss on" true = None /\
  search (lit "set " +++ Opt (lit "color ") +++ lit "to " +++ Grp Words)%re
         "please SET Color to Red_9 now" true = Some (Match (Some "Red_9")) /\
  search (lit "set " +++ Opt (lit "color ") +++ lit "to " +++ Grp Words)%re
         "set to , set to blue!" true = Some (Match (Some "blue")) /\
  search (lit "change to " +++ Grp Words)%re "change to" true = None.
Proof. repeat split; vm_compute; reflexivity. Qed.

(** A phone without infrared manager: [on_start] reports it and disables
    the button. *)
Example on_start_example :
  on_start (Env Android quiet None) (snd (build phone new_app)) =
  (Ret tt,
   set_ui (set_btn_disabled true
             (ui (reported "No IR blaster detected on this device"
                    (snd (build phone new_app)))))
          (reported "No IR blaster detected on this device"
             (snd (build phone new_app)))).
Proof. vm_compute. reflexivity. Qed.

(** ** The properties of the specification *)

(** C1. The command classifier is regular-expression matching plus a
    dictionary lookup: [execute_command] always returns a boolean; it
    returns [True] only if the command matches a pattern of the group on,
    or of the group off, or a pattern of the group color whose captured
    word, in lower case, is a key of [COLOR_MAP]; and when no pattern of
    any group matches it returns [False] and changes nothing, so that the
    journal gets no infrared code. *)
Theorem C1_classifier (e : env) (a : SmartLightControlApp) (command : string) :
  (exists b a', execute_command command e a = (Ret b, a')) /\
  (forall a', execute_command command e a = (Ret true, a') ->
     matches_group On command \/ matches_group Off command \/
     exists p word,
       In p (COMMAND_PATTERNS Color) /\
       search p command true = Some (Match (Some word)) /\
       dict_mem COLOR_MAP (Str.lower word) = true) /\
  ((forall g p, In p (COMMAND_PATTERNS g) -> search p command true = None) ->
     execute_command command e a = (Ret false, a)).
Proof.
  split; [|split].
  - py_run; eauto.
  - intros a'.
    destruct (first_match (COMMAND_PATTERNS On) command) eqn:Hon.
    { intros _. left. apply first_match_matches. congruence. }
    destruct (first_match (COMMAND_PATTERNS Off) command) eqn:Hoff.
    { intros _. right. left. apply first_match_matches. congruence. }
    destruct (first_match (COMMAND_PATTERNS Color) command) as [[[word|]]|] eqn:Hcol.
    + destruct (first_match_some _ _ _ Hcol) as (p & Hp & Hs).
      destruct (dict_get COLOR_MAP (Str.lower word)) eqn:Hget.
      * intros _. right. right. exists p, word.
        unfold dict_mem. rewrite Hget. auto.
      * unfold execute_command, execute_command_try.
        rewrite Hon, Hoff, Hcol. py_simpl. cbv zeta. rewrite Hget.
        py_run; discriminate.
    + unfold execute_command, execute_command_try.
      rewrite Hon, Hoff, Hcol. py_run; discriminate.
    + unfold execute_command, execute_command_try.
      rewrite Hon, Hoff, Hcol. py_run; discriminate.
  - intros H.
    assert (Hg : forall g, first_match (COMMAND_PATTERNS g) command = None).
    { intros g. apply first_match_none. intros p Hp. apply (H g p Hp). }
    unfold execute_command, execute_command_try.
    rewrite (Hg On), (Hg Off), (Hg Color). reflexivity.
Qed.

Lemma C1_classifier_witness :
  execute_command "open the door" phone new_app = (Ret false, new_app).
Proof.
  apply (proj2 (proj2 (C1_classifier phone new_app "open the door"))).
  intros g p Hp.
  destruct g; simpl in Hp;
    repeat (destruct Hp as [<-|Hp]; [vm_compute; reflexivity|]);
    contradiction.
Defined.

(** C2, the claim as first stated fails: this command matches the colour
    pattern [change to (\w+)] with the key [red] captured, but the group on
    is judged first, so that the list for on is sent and [current_color]
    stays what it was. *)
Lemma C2_counterexample :
  In (lit "change to " +++ Grp Words)%re (COMMAND_PATTERNS Color) /\
  search (lit "change to " +++ Grp Words)%re "turn on and change to red" true
    = Some (Match (Some "red")) /\
  dict_get COLOR_MAP "red" = Some [38000; 9000; 4500; 562; 562; 1687; 562] /\
  fst (execute_command "turn on and change to red" phone ready_app) = Ret true /\
  current_color (snd (execute_command "turn on and change to red" phone ready_app))
    = "white" /\
  journal (snd (execute_command "turn on and change to red" phone ready_app)) =
  (journal ready_app ++
   [SendIr ON_CODE "Turning lights ON";
    IrTransmit 38000 [9000; 4500; 562; 562; 562; 562];
    Log Info "IR signal sent: Turning lights ON"])%list.
Proof.
  split; [now left|]. repeat split; vm_compute; reflexivity.
Qed.

(** C2, as amended. For every key [color] of [COLOR_MAP]: when a command
    matches no pattern of the groups on and off, and the first pattern of
    the group color that matches it captures a word whose lower-case form
    is [color], [execute_command] assigns [current_color], looks up
    [COLOR_MAP[color]], passes exactly that list to [send_ir_code] and
    returns [True]; on a phone whose emitter works the list is
    transmitted, element 0 as the frequency. *)
Theorem C2_color_command (e : env) (a : SmartLightControlApp) (command : string)
        (m : match_obj) (word color : string) (code : list Z) :
  ~ matches_group On command -> ~ matches_group Off command ->
  first_match (COMMAND_PATTERNS Color) command = Some m ->
  group1 m = Some word -> Str.lower word = color ->
  dict_get COLOR_MAP color = Some code ->
  let text := "Changing to " ++ Str.upper color in
  let a' := snd (execute_command command e a) in
  execute_command command e a =
    (Ret true, snd (send_ir_code code text e (with_color color a))) /\
  current_color a' = color /\
  (exists tail, journal a' = (journal a ++ SendIr code text :: tail)%list /\
                forall p t, ~ In (SendIr p t) tail) /\
  (platform e = Android -> ir_manager a = Some (IrService true) ->
   raises e HasIrEmitter = None -> raises e Transmit = None ->
   exists s, code = 38000 :: s /\
     journal a' = (journal a ++ [SendIr code text; IrTransmit 38000 s;
                                 Log Info ("IR signal sent: " ++ text)])%list).
Proof.
  intros Hon Hoff Hcol Hg Hw Hget text a'.
  assert (Heq : execute_command command e a =
                (Ret true, snd (send_ir_code code text e (with_color color a)))).
  { unfold text, execute_command, execute_command_try.
    rewrite (not_matches_group _ _ Hon), (not_matches_group _ _ Hoff), Hcol, Hg.
    cbv zeta. rewrite Hw, Hget. unfold try_except, bind, ret.
    pose proof (send_ir_code_returns code ("Changing to " ++ Str.upper color) e
                  (with_color color a)) as Hr.
    cbv beta iota zeta delta [bind ret modify update_info_panel get modify_ui].
    change (set_ui _ (set_current_color color a)) with (with_color color a).
    destruct (send_ir_code code _ e (with_color color a)) as [r a1].
    cbn [fst] in Hr. subst r. reflexivity. }
  subst a'. rewrite Heq. cbn [snd].
  destruct (send_ir_code_journal code text e (with_color color a))
    as ((tail & Hj & Hs & _ & _) & Hc & _).
  split; [reflexivity|]. split; [rewrite Hc; reflexivity|]. split.
  - exists tail. split; [exact Hj | exact Hs].
  - intros Hp Hm Hh Ht. destruct (color_map_codes _ _ Hget) as (s & ->).
    exists s. split; [reflexivity|].
    now rewrite send_ir_code_transmits.
Qed.

Lemma C2_color_command_witness :
  execute_command "make it Pink" phone ready_app =
  (Ret true,
   snd (send_ir_code [38000; 9000; 4500; 1687; 562; 562; 1687] "Changing to PINK"
                     phone (with_color "pink" ready_app))).
Proof.
  exact (proj1 (C2_color_command phone ready_app "make it Pink"
                  (Match (Some "Pink")) "Pink" "pink"
                  [38000; 9000; 4500; 1687; 562; 562; 1687]
                  (none_not_matches_b On "make it Pink" eq_refl)
                  (none_not_matches_b Off "make it Pink" eq_refl)
                  eq_refl eq_refl eq_refl eq_refl)).
Defined.

(** C3. The lists handed to [send_ir_code] are constants that begin with
    the carrier frequency 38000, and [send_ir_code] transmits element 0 as
    the frequency and the remaining elements as the signal: (1) every
    value of [COLOR_MAP] and the lists for on and off are [38000 :: _];
    (2) a call of [send_ir_code] that an operation makes is for one of
    these lists; (3) a transmission that [send_ir_code pattern] makes is
    of [pattern[0]] and [pattern[1:]]; (4) on a phone whose emitter works
    it makes that transmission. *)
Theorem C3_ir_patterns :
  (forall p, ir_code p -> exists s, p = 38000 :: s) /\
  (forall o e a p t,
     (forall p' t', o <> OpSendIrCode p' t') ->
     In (SendIr p t) (journal (snd (run_op o e a))) ->
     In (SendIr p t) (journal a) \/ ir_code p) /\
  (forall p t e a f s,
     In (IrTransmit f s) (journal (snd (send_ir_code p t e a))) ->
     In (IrTransmit f s) (journal a) \/ p = f :: s) /\
  (forall f s t e a,
     platform e = Android -> ir_manager a = Some (IrService true) ->
     raises e HasIrEmitter = None -> raises e Transmit = None ->
     journal (snd (send_ir_code (f :: s) t e a)) =
     (journal a ++ [SendIr (f :: s) t; IrTransmit f s;
                    Log Info ("IR signal sent: " ++ t)])%list).
Proof.
  split; [|split; [|split]].
  - intros p [->|[->|(color & H)]].
    + eexists; reflexivity.
    + eexists; reflexivity.
    + eapply color_map_codes; eassumption.
  - intros. eapply run_op_sends; eassumption.
  - intros p t e a f s.
    destruct (send_ir_code_journal p t e a) as ((tail & Hj & _ & _ & Ht) & _).
    cbv zeta in Hj. rewrite Hj, in_app_iff.
    intros [H|[H|H]]; [now left|discriminate|].
    destruct Ht as [(f0 & s0 & -> & ->)|Ht].
    + destruct H as [H|[H|[]]]; [|discriminate].
      injection H as <- <-. now right.
    + now apply Ht in H.
  - intros. now apply send_ir_code_transmits.
Qed.

Lemma C3_ir_patterns_witness :
  journal (snd (send_ir_code ON_CODE "Turning lights ON" phone ready_app)) =
  (journal ready_app ++
   [SendIr ON_CODE "Turning lights ON";
    IrTransmit 38000 [9000; 4500; 562; 562; 562; 562];
    Log Info "IR signal sent: Turning lights ON"])%list.
Proof.
  apply (proj2 (proj2 (proj2 C3_ir_patterns))
           38000 [9000; 4500; 562; 562; 562; 562] "Turning lights ON"
           phone ready_app); reflexivity.
Defined.







(** C6, the claim as first stated fails: after [start_listening] two clock
    events are pending at once, the next step of the progress animation
    and the listening timeout. *)
Lemma C6_counterexample :
  clock ready_app = [] /\
  clock (snd (start_listening phone ready_app)) =
  [ClockEvent 0 CbAnimateProgress 200; ClockEvent 2 CbListeningTimeout 10000].
Proof. split; vm_compute; reflexivity. Qed.

(** C6, as amended. The timers are events of the one clock. A
    [start_listening] that succeeds leaves two more of them pending, the
    next step of the progress animation (0.2 s) and the listening timeout
    (10 s); no operation leaves more than two more pending than it found,
    and every operation but [start_listening] (and [toggle_listening],
    which calls it) at most one more. *)
Theorem C6_timers :
  (forall e a,
     platform e = Android ->
     raises e CreateSpeechRecognizer = None ->
     raises e SetRecognitionListener = None ->
     raises e MakeIntent = None -> raises e StartListening = None ->
     clock (snd (start_listening e a)) =
     (clock a ++ [ClockEvent (fresh a) CbAnimateProgress 200;
                  ClockEvent (S (S (fresh a))) CbListeningTimeout 10000])%list) /\
  (forall o e a,
     (length (clock (snd (run_op o e a))) <= length (clock a) + 2)%nat) /\
  (forall o e a,
     o <> OpStartListening -> o <> OpToggleListening ->
     (length (clock (snd (run_op o e a))) <= length (clock a) + 1)%nat).
Proof.
  split; [|split].
  - intros e a Hp H1 H2 H3 H4. py_go. rewrite <- app_assoc. reflexivity.
  - intros. apply run_op_clock.
  - intros. now apply run_op_clock.
Qed.

Lemma C6_timers_witness :
  clock (snd (start_listening phone ready_app)) =
  (clock ready_app ++ [ClockEvent (fresh ready_app) CbAnimateProgress 200;
                       ClockEvent (S (S (fresh ready_app))) CbListeningTimeout 10000])%list.
Proof.
  exact (proj1 C6_timers phone ready_app eq_refl eq_refl eq_refl eq_refl eq_refl).
Defined.

(** C7, the claim as first stated fails: when [recognizer.destroy()]
    raises, [stop_listening] logs the error and returns normally, and the
    session is what it was: the recognizer and the timeout are still
    there and [is_listening] is still [True]. *)
Lemma C7_counterexample :
  fst (stop_listening (phone_where Destroy (Exception "Service not registered"))
                      (snd (start_listening phone ready_app))) = Ret tt /\
  recognizer (snd (stop_listening (phone_where Destroy (Exception "Service not registered"))
                                  (snd (start_listening phone ready_app)))) = Some 1%nat /\
  listening_timeout
    (snd (stop_listening (phone_where Destroy (Exception "Service not registered"))
                         (snd (start_listening phone ready_app)))) = Some 2%nat /\
  is_listening (snd (stop_listening (phone_where Destroy (Exception "Service not registered"))
                                    (snd (start_listening phone ready_app)))) = true.
Proof. repeat split; vm_compute; reflexivity. Qed.

(** C7, as amended. A session is started and stopped: (1) after a call of
    [stop_listening] in which [recognizer.destroy()] does not raise (there
    is no recognizer, or the call succeeds), [recognizer] and
    [listening_timeout] are [None] and [is_listening] is [False], whatever
    the state was; (2) when [destroy()] raises, [stop_listening] logs the
    error, returns normally and leaves the state as it was; (3) an
    operation that finds [is_listening] [False] and leaves it [True] is
    [start_listening] or [toggle_listening], and (4) the latter then is a
    call of [start_listening]. *)
Theorem C7_session :
  (forall e a,
     recognizer a = None \/ raises e Destroy = None ->
     let a' := snd (stop_listening e a) in
     fst (stop_listening e a) = Ret tt /\
     recognizer a' = None /\ listening_timeout a' = None /\
     is_listening a' = false) /\
  (forall e a r x,
     recognizer a = Some r -> raises e Destroy = Some x ->
     stop_listening e a =
     (Ret tt, logged ("Error stopping recognition: " ++ str_exn x) a)) /\
  (forall o e a,
     is_listening a = false -> is_listening (snd (run_op o e a)) = true ->
     o = OpStartListening \/ o = OpToggleListening) /\
  (forall e a,
     is_listening a = false -> toggle_listening e a = start_listening e a).
Proof.
  split; [|split; [|split]].
  - intros e a [H|H]; revert H; py_eval; intros; repeat split; congruence.
  - intros e a r x H1 H2. unfold logged. py_go. reflexivity.
  - intros. eapply run_op_is_listening; eassumption.
  - intros e a H. unfold toggle_listening, bind, get. now rewrite H.
Qed.

Lemma C7_session_witness :
  recognizer (snd (stop_listening phone (snd (start_listening phone ready_app)))) = None /\
  listening_timeout (snd (stop_listening phone (snd (start_listening phone ready_app)))) = None /\
  is_listening (snd (stop_listening phone (snd (start_listening phone ready_app)))) = false.
Proof.
  exact (proj2 (proj1 C7_session phone (snd (start_listening phone ready_app))
                  (or_intror eq_refl))).
Defined.

(** C8, the claim as first stated fails: this command matches a pattern of
    the group on and one of the group off; it is answered as on and
    [execute_command] returns [True], but the transmitter is busy and the
    list for on is not transmitted. *)
Lemma C8_counterexample :
  matches_group On "turn on and turn off" /\
  matches_group Off "turn on and turn off" /\
  fst (execute_command "turn on and turn off" busy_phone ready_app) = Ret true /\
  journal (snd (execute_command "turn on and turn off" busy_phone ready_app)) =
    (journal ready_app ++
     [ SendIr ON_CODE "Turning lights ON";
       Log Error "IR transmission error: IR hardware busy";
       Log Error "Failed to send IR signal: IR hardware busy" ])%list.
Proof.
  split; [|split].
  - exists (lit "turn on"). split; [right; now left|]. vm_compute. discriminate.
  - exists (lit "turn off"). split; [now left|]. vm_compute. discriminate.
  - vm_compute. repeat split.
Qed.

(** C8, as amended. The groups are judged in the order on, off, color: a
    command that matches a pattern of the group on and also one of the
    group off or of the group color is answered as on: [execute_command]
    calls [send_ir_code] with the list for on, once, leaves
    [current_color] alone and returns [True]; on a phone whose emitter
    works the list for on is transmitted. *)
Theorem C8_on_first (e : env) (a : SmartLightControlApp) (command : string) :
  matches_group On command ->
  matches_group Off command \/ matches_group Color command ->
  let a' := snd (execute_command command e a) in
  execute_command command e a =
    (Ret true, snd (send_ir_code ON_CODE "Turning lights ON" e a)) /\
  current_color a' = current_color a /\
  (exists tail,
     journal a' = (journal a ++ SendIr ON_CODE "Turning lights ON" :: tail)%list /\
     no_send tail) /\
  (platform e = Android -> ir_manager a = Some (IrService true) ->
   raises e HasIrEmitter = None -> raises e Transmit = None ->
   journal a' =
   (journal a ++ [SendIr ON_CODE "Turning lights ON";
                  IrTransmit 38000 [9000; 4500; 562; 562; 562; 562];
                  Log Info "IR signal sent: Turning lights ON"])%list).
Proof.
  intros Hon _ a'.
  assert (Heq : execute_command command e a =
                (Ret true, snd (send_ir_code ON_CODE "Turning lights ON" e a))).
  { unfold execute_command, execute_command_try, try_except, bind, ret.
    apply first_match_matches in Hon.
    destruct (first_match (COMMAND_PATTERNS On) command); [|contradiction].
    pose proof (send_ir_code_returns ON_CODE "Turning lights ON" e a) as Hr.
    destruct (send_ir_code ON_CODE "Turning lights ON" e a) as [r a1].
    cbn [fst] in Hr. now subst r. }
  subst a'. rewrite Heq. cbn [snd].
  destruct (send_ir_code_journal ON_CODE "Turning lights ON" e a)
    as ((tail & Hj & Hs & _) & Hc & _).
  split; [reflexivity|]. split; [exact Hc|]. split.
  - exists tail. split; assumption.
  - intros. now apply send_ir_code_transmits.
Qed.

Lemma C8_on_first_witness :
  execute_command "turn on the light and change to red" phone ready_app =
  (Ret true, snd (send_ir_code ON_CODE "Turning lights ON" phone ready_app)).
Proof.
  refine (proj1 (C8_on_first phone ready_app "turn on the light and change to red" _ _)).
  - exists (lit "turn on"). split; [right; now left|]. vm_compute. discriminate.
  - right. exists (lit "change to " +++ Grp Words)%re.
    split; [now left|]. vm_compute. discriminate.
Defined.

(** C9, the claim as first stated fails: this command matches the colour
    pattern [make it (\w+)] with a captured word that is no key, but the
    group on is judged first: [execute_command] returns [True] and the
    list for on is transmitted. *)
Lemma C9_counterexample :
  In (lit "make it " +++ Grp Words)%re (COMMAND_PATTERNS Color) /\
  search (lit "make it " +++ Grp Words)%re "turn on and make it magenta" true
    = Some (Match (Some "magenta")) /\
  dict_mem COLOR_MAP (Str.lower "magenta") = false /\
  fst (execute_command "turn on and make it magenta" phone ready_app) = Ret true /\
  journal (snd (execute_command "turn on and make it magenta" phone ready_app)) =
  (journal ready_app ++
   [SendIr ON_CODE "Turning lights ON";
    IrTransmit 38000 [9000; 4500; 562; 562; 562; 562];
    Log Info "IR signal sent: Turning lights ON"])%list.
Proof.
  split; [right; right; now left|]. repeat split; vm_compute; reflexivity.
Qed.

(** C9, as amended. When a command matches no pattern of the groups on
    and off, and the first pattern of the group color that matches it
    captures a word whose lower-case form is no key of [COLOR_MAP],
    [execute_command] returns [False] at once: it writes the status label
    and nothing else, so that nothing is sent and [current_color] is what
    it was. The later patterns are not tried: there is a command in which
    a later pattern captures a key and which is refused all the same. *)
Theorem C9_unknown_color :
  (forall e a command m word,
     ~ matches_group On command -> ~ matches_group Off command ->
     first_match (COMMAND_PATTERNS Color) command = Some m ->
     group1 m = Some word ->
     dict_mem COLOR_MAP (Str.lower word) = false ->
     let a' := snd (execute_command command e a) in
     execute_command command e a =
       (Ret false,
        set_ui (set_status ("Color '" ++ Str.lower word ++ "' not available. Try: "
                            ++ Str.join ", " (dict_keys COLOR_MAP)) WHITE (ui a)) a) /\
     journal a' = journal a /\ current_color a' = current_color a) /\
  (exists command p word,
     In p (COMMAND_PATTERNS Color) /\
     search p command true = Some (Match (Some word)) /\
     dict_mem COLOR_MAP (Str.lower word) = true /\
     forall e a, fst (execute_command command e a) = Ret false /\
                 journal (snd (execute_command command e a)) = journal a).
Proof.
  assert (H1 : forall e a command m word,
     ~ matches_group On command -> ~ matches_group Off command ->
     first_match (COMMAND_PATTERNS Color) command = Some m ->
     group1 m = Some word ->
     dict_mem COLOR_MAP (Str.lower word) = false ->
     execute_command command e a =
       (Ret false,
        set_ui (set_status ("Color '" ++ Str.lower word ++ "' not available. Try: "
                            ++ Str.join ", " (dict_keys COLOR_MAP)) WHITE (ui a)) a)).
  { intros e a command m word Hon Hoff Hcol Hg Hmem.
    unfold execute_command, execute_command_try.
    rewrite (not_matches_group _ _ Hon), (not_matches_group _ _ Hoff), Hcol, Hg.
    cbv zeta. unfold dict_mem in Hmem.
    destruct (dict_get COLOR_MAP (Str.lower word)); [discriminate|].
    reflexivity. }
  split.
  - intros e a command m word Hon Hoff Hcol Hg Hmem a'. subst a'.
    rewrite (H1 e a command m word Hon Hoff Hcol Hg Hmem).
    repeat split.
  - exists "make it magenta and switch to red", (lit "switch to " +++ Grp Words)%re, "red".
    split; [do 3 right; now left|].
    split; [vm_compute; reflexivity|]. split; [vm_compute; reflexivity|].
    intros e a.
    rewrite (H1 e a "make it magenta and switch to red" (Match (Some "magenta")) "magenta"
               (none_not_matches_b On "make it magenta and switch to red" eq_refl)
               (none_not_matches_b Off "make it magenta and switch to red" eq_refl)
               eq_refl eq_refl eq_refl).
    split; reflexivity.
Qed.

Lemma C9_unknown_color_witness :
  journal (snd (execute_command "change to magenta" phone ready_app)) = journal ready_app /\
  current_color (snd (execute_command "change to magenta" phone ready_app)) =
  current_color ready_app.
Proof.
  exact (proj2 (proj1 C9_unknown_color phone ready_app "change to magenta"
                  (Match (Some "magenta")) "magenta"
                  (none_not_matches_b On "change to magenta" eq_refl)
                  (none_not_matches_b Off "change to magenta" eq_refl)
                  eq_refl eq_refl eq_refl)).
Defined.

(** C10. [current_color] is always a key of [COLOR_MAP]: it is one after
    [__init__], every operation keeps it one, and so it is one in every
    state the application can reach. *)
Theorem C10_current_color :
  color_ok new_app /\
  (forall o e a, color_ok a -> color_ok (snd (run_op o e a))) /\
  (forall a, reachable a -> color_ok a).
Proof.
  assert (H : forall o e a, color_ok a -> color_ok (snd (run_op o e a)))
    by exact run_op_color_ok.
  split; [reflexivity|]. split; [exact H|].
  intros a Hr. induction Hr as [|o e a _ IH]; [reflexivity|].
  now apply H.
Qed.

Lemma C10_current_color_witness :
  color_ok (snd (run_op (OpProcessSpeech (Some ["make it magenta"; "switch to Purple"]))
                        phone ready_app)).
Proof.
  apply (proj2 (proj2 C10_current_color)).
  apply reach_op. unfold ready_app.
  apply (reach_op OpOnStart phone), (reach_op OpBuild phone), reach_new.
Defined.

(** * Further properties of the code *)

(** ** The patterns and the case of the command *)

Lemma lower_char_idem (c : ascii) :
  Chars.lower_char (Chars.lower_char c) = Chars.lower_char c.
Proof. destruct c as [[] [] [] [] [] [] [] []]; vm_compute; reflexivity. Qed.

Lemma is_word_lower_char (c : ascii) :
  Chars.is_word (Chars.lower_char c) = Chars.is_word c.
Proof. destruct c as [[] [] [] [] [] [] [] []]; vm_compute; reflexivity. Qed.

Lemma lower_idem (s : string) : Str.lower (Str.lower s) = Str.lower s.
Proof.
  induction s as [|c s IH]; [reflexivity|].
  cbn. now rewrite lower_char_idem, IH.
Qed.

Lemma length_lower (s : string) : String.length (Str.lower s) = String.length s.
Proof. induction s as [|c s IH]; [reflexivity|]. cbn. now rewrite IH. Qed.

Lemma take_lower (n : nat) (s : string) :
  Str.take n (Str.lower s) = Str.lower (Str.take n s).
Proof.
  revert s. induction n as [|n IH]; intros [|c s]; try reflexivity.
  cbn. now rewrite IH.
Qed.

Lemma eq_char_lower (p c : ascii) :
  Chars.eq_char true p (Chars.lower_char c) = Chars.eq_char true p c.
Proof. unfold Chars.eq_char. now rewrite lower_char_idem. Qed.

(** Matching the lower-case subject, with continuations that agree up to
    the case of the group, gives the same match up to that case. *)
Lemma many_words_lower (s : string) (k k' : string -> option match_obj) :
  (forall t, k' (Str.lower t) = option_map lower_match (k t)) ->
  many_words (Str.lower s) k' = option_map lower_match (many_words s k).
Proof.
  intros Hk. induction s as [|c s IH].
  - cbn. apply (Hk "").
  - cbn [Str.lower Str.map many_words]. rewrite is_word_lower_char.
    destruct (Chars.is_word c); [|apply (Hk (String c s))].
    change (Str.map Chars.lower_char s) with (Str.lower s). rewrite IH.
    destruct (many_words s k); [reflexivity|apply (Hk (String c s))].
Qed.

Lemma run_lower (r : re) :
  forall s g k k',
    (forall t g, k' (Str.lower t) (option_map Str.lower g) = option_map lower_match (k t g)) ->
    run true r (Str.lower s) (option_map Str.lower g) k' =
    option_map lower_match (run true r s g k).
Proof.
  induction r as [|p| |a IHa b IHb|a IHa|a IHa]; intros s g k k' Hk; cbn [run].
  - apply Hk.
  - destruct s as [|c s]; [reflexivity|].
    cbn [Str.lower Str.map]. rewrite eq_char_lower.
    destruct (Chars.eq_char true p c); [apply Hk|reflexivity].
  - destruct s as [|c s]; [reflexivity|].
    cbn [Str.lower Str.map]. rewrite is_word_lower_char.
    destruct (Chars.is_word c); [|reflexivity].
    apply many_words_lower. intros t. apply Hk.
  - apply IHa. intros t g'. apply IHb. exact Hk.
  - rewrite (IHa s g k k' Hk).
    destruct (run true a s g k); [reflexivity|apply Hk].
  - apply IHa. intros t g'. rewrite !length_lower, take_lower.
    apply (Hk t (Some (Str.take (String.length s - String.length t) s))).
Qed.

Lemma match_here_lower (r : re) (s : string) :
  match_here true r (Str.lower s) = option_map lower_match (match_here true r s).
Proof.
  unfold match_here.
  exact (run_lower r s None (fun _ g => Some (Match g)) (fun _ g => Some (Match g))
           (fun _ _ => eq_refl)).
Qed.

Lemma search_lower (r : re) (s : string) :
  search r (Str.lower s) true = option_map lower_match (search r s true).
Proof.
  induction s as [|c s IH].
  - pose proof (match_here_lower r "") as H.
    change (Str.lower "") with "" in *. cbn [search].
    destruct (match_here true r ""); [exact H|reflexivity].
  - assert (E : forall c s, search r (String c s) true =
                             match match_here true r (String c s) with
                             | Some m => Some m
                             | None => search r s true
                             end) by reflexivity.
    change (Str.lower (String c s)) with (String (Chars.lower_char c) (Str.lower s)).
    rewrite !E.
    change (String (Chars.lower_char c) (Str.lower s)) with (Str.lower (String c s)).
    rewrite match_here_lower.
    destruct (match_here true r (String c s)); [reflexivity|exact IH].
Qed.

Lemma first_match_lower (ps : list re) (command : string) :
  first_match ps (Str.lower command) = option_map lower_match (first_match ps command).
Proof.
  induction ps as [|p ps IH]; [reflexivity|].
  cbn [first_match]. rewrite search_lower.
  destruct (search p command true); [reflexivity|exact IH].
Qed.

(** X1. On text of the code points U+0000 to U+00FF, which is the text of
    this development, [execute_command] does not see the case of the
    command: a command and its lower-case form give the same result and
    the same state. (Beyond these code points it is not so: U+0130
    matches [i] under [re.IGNORECASE], and its lower-case form does
    not.) *)
Theorem X1_case_insensitive (command : string) (e : env) (a : SmartLightControlApp) :
  execute_command (Str.lower command) e a = execute_command command e a.
Proof.
  unfold execute_command, execute_command_try.
  rewrite !first_match_lower.
  destruct (first_match (COMMAND_PATTERNS On) command); [reflexivity|].
  destruct (first_match (COMMAND_PATTERNS Off) command); [reflexivity|].
  destruct (first_match (COMMAND_PATTERNS Color) command) as [[[word|]]|];
    [|reflexivity|reflexivity].
  cbn [option_map lower_match group1]. now rewrite lower_idem.
Qed.

(** X2. What [execute_command] returns depends on the text of the command
    alone, not on the platform, on the state or on whether the infrared
    code could be sent: it is [True] exactly when a pattern of the group
    on or off matches, or the first matching pattern of the group color
    captures a word whose lower-case form is a key of [COLOR_MAP]. *)
Theorem X2_result_by_text (command : string) :
  (forall e a e' a',
     fst (execute_command command e a) = fst (execute_command command e' a')) /\
  (forall e a,
     fst (execute_command command e a) = Ret true <->
     (matches_group On command \/ matches_group Off command \/
      exists m word,
        first_match (COMMAND_PATTERNS Color) command = Some m /\
        group1 m = Some word /\
        dict_mem COLOR_MAP (Str.lower word) = true)).
Proof.
  split.
  - intros e a e' a'. now rewrite !execute_command_accepts.
  - intros e a. rewrite execute_command_accepts. unfold accepts. split.
    + intros H.
      destruct (first_match (COMMAND_PATTERNS On) command) eqn:Hon;
        [left; eapply some_matches; eassumption|].
      destruct (first_match (COMMAND_PATTERNS Off) command) eqn:Hoff;
        [right; left; eapply some_matches; eassumption|].
      destruct (first_match (COMMAND_PATTERNS Color) command) as [[[word|]]|];
        cbn [group1] in H; try discriminate.
      right. right. exists (Match (Some word)), word. repeat split. congruence.
    + intros [H|[H|(m & word & Hm & Hg & Hk)]].
      * apply first_match_matches in H.
        destruct (first_match (COMMAND_PATTERNS On) command); [reflexivity|contradiction].
      * apply first_match_matches in H.
        destruct (first_match (COMMAND_PATTERNS On) command); [reflexivity|].
        destruct (first_match (COMMAND_PATTERNS Off) command); [reflexivity|contradiction].
      * destruct (first_match (COMMAND_PATTERNS On) command); [reflexivity|].
        destruct (first_match (COMMAND_PATTERNS Off) command); [reflexivity|].
        rewrite Hm, Hg, Hk. reflexivity.
Qed.

Lemma X2_result_by_text_witness :
  fst (execute_command "lights on" phone ready_app) = Ret true.
Proof.
  apply (proj2 (X2_result_by_text "lights on")). left.
  exists (lit "light" +++ Opt (Chr "s") +++ lit " on")%re.
  split; [right; right; now left|vm_compute; discriminate].
Defined.

(** ** The captured word *)

Lemma take_length_append (w t : string) :
  Str.take (String.length (w ++ t) - String.length t) (w ++ t) = w.
Proof.
  assert (L : forall w t, String.length (w ++ t) = (String.length w + String.length t)%nat).
  { intros w0 t0. induction w0 as [|c w0 IH]; [reflexivity|]. cbn. now rewrite IH. }
  rewrite L. replace (String.length w + String.length t - String.length t)%nat
    with (String.length w) by lia.
  induction w as [|c w IH].
  - destruct t; reflexivity.
  - cbn. now rewrite IH.
Qed.

Lemma many_words_split (s : string) (k : string -> option match_obj) (m : match_obj) :
  many_words s k = Some m ->
  exists w t, s = w ++ t /\ all_word w = true /\ k t = Some m.
Proof.
  induction s as [|c s IH]; cbn [many_words].
  - intros H. exists "", "". auto.
  - destruct (Chars.is_word c) eqn:Hc.
    + destruct (many_words s k) eqn:Hm.
      * intros [= <-]. destruct (IH eq_refl) as (w & t & -> & Hw & Hk).
        exists (String c w), t. cbn. rewrite Hc, Hw. auto.
      * intros H. exists "", (String c s). auto.
    + intros H. exists "", (String c s). auto.
Qed.

Lemma run_word (ignorecase : bool) (r : re) :
  ends_with_word r = true ->
  forall s g k m,
    run ignorecase r s g k = Some m ->
    exists w t, w <> "" /\ all_word w = true /\ k t (Some w) = Some m.
Proof.
  induction r as [|p| |a IHa b IHb|a IHa|a IHa]; cbn [ends_with_word]; try discriminate.
  - intros Hb s g k m. cbn [run]. intros H.
    apply run_result in H. destruct H as (t & g' & H).
    eapply IHb; eassumption.
  - destruct a; try discriminate. intros _ s g k m. cbn [run].
    destruct s as [|c s]; [discriminate|].
    destruct (Chars.is_word c) eqn:Hc; [|discriminate].
    intros H. apply many_words_split in H.
    destruct H as (w & t & -> & Hw & Hk).
    exists (String c w), t. split; [discriminate|]. split; [cbn; now rewrite Hc, Hw|].
    change (String c (w ++ t)) with (String c w ++ t) in Hk.
    now rewrite take_length_append in Hk.
Qed.

Lemma is_word_no_space (c : ascii) : Chars.is_word c = true -> Chars.is_space c = false.
Proof.
  destruct c as [[|] [|] [|] [|] [|] [|] [|] [|]]; vm_compute;
    first [reflexivity|discriminate].
Qed.

Lemma all_word_no_space (s : string) : all_word s = true -> has_space s = false.
Proof.
  induction s as [|c s IH]; cbn [all_word has_space]; [reflexivity|].
  intros H. apply andb_true_iff in H. destruct H as (Hc & Hs).
  now rewrite (is_word_no_space c Hc), (IH Hs).
Qed.

(** X3. The word that a pattern of the group color captures is a
    non-empty run of characters of the class [\w] (alphanumeric
    characters and the underscore); it holds no white space. *)
Theorem X3_captured_word (command : string) (m : match_obj) :
  first_match (COMMAND_PATTERNS Color) command = Some m ->
  exists word,
    group1 m = Some word /\ word <> "" /\ all_word word = true /\
    has_space word = false.
Proof.
  intros H. apply first_match_some in H. destruct H as (p & Hp & Hs).
  assert (Hw : ends_with_word p = true).
  { cbn in Hp. repeat (destruct Hp as [<-|Hp]; [reflexivity|]). contradiction. }
  clear Hp. induction command as [|c s IH]; cbn [search] in Hs; unfold match_here in Hs.
  - destruct (run true p "" None _) eqn:Hr; [|discriminate].
    injection Hs as <-. apply (run_word _ _ Hw) in Hr.
    destruct Hr as (w & t & Hne & Ha & Hk). cbv beta in Hk. injection Hk as <-.
    exists w. auto using all_word_no_space.
  - destruct (run true p (String c s) None _) eqn:Hr; [|exact (IH Hs)].
    injection Hs as <-. apply (run_word _ _ Hw) in Hr.
    destruct Hr as (w & t & Hne & Ha & Hk). cbv beta in Hk. injection Hk as <-.
    exists w. auto using all_word_no_space.
Qed.

Lemma X3_captured_word_witness :
  exists word,
    group1 (Match (Some "red")) = Some word /\ word <> "" /\ all_word word = true /\
    has_space word = false.
Proof.
  exact (X3_captured_word "change to red, please" (Match (Some "red")) eq_refl).
Defined.

(** ** Invariants of the running application *)

Ltac open_state :=
  apply by_end_state;
  unfold session_ok, panel_ok, button_ok; py_eval.

Ltac close_state :=
  let H := fresh "H" in
  intros ? ? H; injection H as <- <-; cbv beta iota; intros;
  repeat match goal with H : _ /\ _ |- _ => destruct H end;
  first [ assumption
        | discriminate
        | solve [repeat split; first [reflexivity|assumption|congruence]]
        | solve [intuition congruence] ].

Lemma run_op_session_ok (o : op) (e : env) (a : SmartLightControlApp) :
  session_ok a -> session_ok (snd (run_op o e a)).
Proof.
  destruct o;
    by_op ltac:(apply (process_speech_keeps any_env session_ok);
                [intros ? ? []; trivial
                |intros ? ? []; trivial
                |intros ? ? []; trivial
                |intros e0 a0 _; open_state; close_state
                |intros c e0 a0 _; open_state; close_state
                |exact I])
          ltac:(open_state; close_state)
          ltac:(open_state; close_state).
Qed.

Lemma run_op_panel_ok (o : op) (e : env) (a : SmartLightControlApp) :
  panel_ok a -> panel_ok (snd (run_op o e a)).
Proof.
  destruct o;
    by_op ltac:(apply (process_speech_keeps any_env panel_ok);
                [intros ? ? []; trivial
                |intros ? ? [? ? ? ? ? []]; trivial
                |intros ? ? []; trivial
                |intros e0 a0 _; open_state; close_state
                |intros c e0 a0 _; open_state; close_state
                |exact I])
          ltac:(open_state; close_state)
          ltac:(open_state; close_state).
Qed.

Lemma run_op_button_ok (o : op) (e : env) (a : SmartLightControlApp) :
  o <> OpBuild -> button_ok a -> button_ok (snd (run_op o e a)).
Proof.
  intros Ho.
  destruct o; try (exfalso; apply Ho; reflexivity);
    by_op ltac:(apply (process_speech_keeps any_env button_ok);
                [intros ? ? []; trivial
                |intros ? ? [? ? ? ? ? []]; trivial
                |intros ? ? []; trivial
                |intros e0 a0 _; open_state; close_state
                |intros c e0 a0 _; open_state; close_state
                |exact I])
          ltac:(open_state; close_state)
          ltac:(open_state; close_state).
Qed.

Lemma built_ok (e : env) :
  session_ok (snd (build e new_app)) /\ panel_ok (snd (build e new_app)) /\
  button_ok (snd (build e new_app)).
Proof.
  destruct (build e new_app) as [r a'] eqn:H. cbn [snd]. revert r a' H.
  unfold new_app, session_ok, panel_ok, button_ok. py_eval;
    intros ? ? H; injection H as <- <-; cbv beta iota;
    repeat split; reflexivity.
Qed.

(** X4. The session leaks nothing: in every state of the running
    application, when [is_listening] is [False] there is no recognizer and
    no listening timeout left. *)
Theorem X4_no_session_outside_listening (a : SmartLightControlApp) :
  running a ->
  is_listening a = false -> recognizer a = None /\ listening_timeout a = None.
Proof.
  intros Hr. change (session_ok a).
  induction Hr as [e|o e a _ _ IH]; [apply built_ok|now apply run_op_session_ok].
Qed.

(** X5. The info panel is never stale: in every state of the running
    application it shows the text made from [current_color]. *)
Theorem X5_info_panel_current (a : SmartLightControlApp) :
  running a -> info_text (ui a) = info_panel_text (current_color a).
Proof.
  intros Hr. change (panel_ok a).
  induction Hr as [e|o e a _ _ IH]; [apply built_ok|now apply run_op_panel_ok].
Qed.

(** X6. The button and the progress bar never disagree with the session:
    in every state of the running application the button reads and is
    coloured as listening, and the progress bar is visible, exactly when
    [is_listening] is [True]. *)
Theorem X6_button_shows_session (a : SmartLightControlApp) :
  running a ->
  btn_text (ui a) =
    (if is_listening a then "🔴 Listening... (Speak Now)" else "🎤 Start Listening") /\
  btn_color (ui a) = (if is_listening a then RED else BTN_GREEN) /\
  progress_opacity (ui a) = (if is_listening a then 1 else 0).
Proof.
  intros Hr. change (button_ok a).
  induction Hr as [e|o e a Ho _ IH]; [apply built_ok|now apply run_op_button_ok].
Qed.

Lemma running_ready_app : running ready_app.
Proof.
  change (running (snd (run_op OpOnStart phone (snd (build phone new_app))))).
  apply running_op; [discriminate|apply running_build].
Qed.

Lemma running_stopped_app : running stopped_app.
Proof.
  unfold stopped_app.
  apply running_op; [discriminate|].
  apply running_op; [discriminate|].
  exact running_ready_app.
Qed.

Lemma X4_no_session_outside_listening_witness :
  recognizer stopped_app = None /\ listening_timeout stopped_app = None.
Proof.
  apply X4_no_session_outside_listening;
    [exact running_stopped_app|vm_compute; reflexivity].
Defined.

Lemma X5_info_panel_current_witness :
  info_text (ui (snd (run_op (OpExecuteCommand "make it pink") phone ready_app))) =
  info_panel_text
    (current_color (snd (run_op (OpExecuteCommand "make it pink") phone ready_app))).
Proof.
  apply X5_info_panel_current.
  apply running_op; [discriminate|exact running_ready_app].
Defined.

Lemma X6_button_shows_session_witness :
  btn_text (ui (snd (run_op OpToggleListening phone ready_app))) =
    (if is_listening (snd (run_op OpToggleListening phone ready_app))
     then "🔴 Listening... (Speak Now)" else "🎤 Start Listening") /\
  btn_color (ui (snd (run_op OpToggleListening phone ready_app))) =
    (if is_listening (snd (run_op OpToggleListening phone ready_app))
     then RED else BTN_GREEN) /\
  progress_opacity (ui (snd (run_op OpToggleListening phone ready_app))) =
    (if is_listening (snd (run_op OpToggleListening phone ready_app)) then 1 else 0).
Proof.
  apply X6_button_shows_session.
  apply running_op; [discriminate|exact running_ready_app].
Defined.

(** ** The session *)

(** X7. Stopping twice is stopping once: after a [stop_listening] in which
    [recognizer.destroy()] did not raise, another [stop_listening], in any
    environment, changes nothing and writes nothing. *)
Theorem X7_stop_idempotent (e e' : env) (a : SmartLightControlApp) :
  recognizer a = None \/ raises e Destroy = None ->
  stop_listening e' (snd (stop_listening e a)) = (Ret tt, snd (stop_listening e a)).
Proof.
  intros [H|H]; revert H; py_eval; intros; first [reflexivity|congruence].
Qed.

Lemma X7_stop_idempotent_witness :
  stop_listening phone
    (snd (stop_listening phone (snd (start_listening phone ready_app)))) =
  (Ret tt, snd (stop_listening phone (snd (start_listening phone ready_app)))).
Proof.
  apply X7_stop_idempotent. right. reflexivity.
Defined.

(** X8. A start that fails leaves no session: when one of the calls that
    set the recognizer up raises and [recognizer.destroy()] does not,
    [start_listening] returns normally, the application is not listening,
    has no recognizer and no timeout, and the status label shows the error
    in red. *)
Theorem X8_failed_start (e : env) (a : SmartLightControlApp) :
  platform e = Android ->
  (raises e CreateSpeechRecognizer <> None \/
   raises e SetRecognitionListener <> None \/
   raises e MakeIntent <> None \/ raises e StartListening <> None) ->
  raises e Destroy = None ->
  let a' := snd (start_listening e a) in
  fst (start_listening e a) = Ret tt /\
  is_listening a' = false /\ recognizer a' = None /\
  listening_timeout a' = None /\
  status_color (ui a') = RED /\
  exists x, status_text (ui a') =
            "❌ " ++ "Failed to start voice recognition: " ++ str_exn x.
Proof.
  intros Hp Hr Hd. revert Hp Hr Hd. py_eval; intros Hp Hr Hd;
    first [ discriminate Hp
          | solve [repeat split; eexists; reflexivity]
          | congruence
          | exfalso; destruct Hr as [H|[H|[H|H]]]; congruence ].
Qed.

Lemma X8_failed_start_witness :
  is_listening (snd (start_listening
                       (phone_where StartListening (Exception "recognizer busy"))
                       ready_app)) = false /\
  recognizer (snd (start_listening
                     (phone_where StartListening (Exception "recognizer busy"))
                     ready_app)) = None.
Proof.
  assert (H := X8_failed_start
                 (phone_where StartListening (Exception "recognizer busy")) ready_app).
  cbv zeta in H. split; apply H; try reflexivity;
    right; right; right; vm_compute; discriminate.
Defined.

(** X9. Pressing the button twice starts a session and stops it: the
    first press leaves the application listening, with a recognizer and a
    timeout; the second leaves it not listening, without either; the
    journal shows that the recognizer created is the one destroyed and the
    timeout scheduled the one cancelled, and that timeout is no longer
    pending. *)
Theorem X9_start_then_stop (e : env) (a : SmartLightControlApp) :
  platform e = Android -> is_listening a = false ->
  raises e CreateSpeechRecognizer = None ->
  raises e SetRecognitionListener = None ->
  raises e MakeIntent = None -> raises e StartListening = None ->
  raises e Destroy = None ->
  let r := S (fresh a) in
  let t := S (S (fresh a)) in
  let a1 := snd (toggle_listening e a) in
  let a2 := snd (toggle_listening e a1) in
  (is_listening a1 = true /\ recognizer a1 = Some r /\ listening_timeout a1 = Some t) /\
  (is_listening a2 = false /\ recognizer a2 = None /\ listening_timeout a2 = None) /\
  journal a2 =
    (journal a ++ [Scheduled (fresh a) CbAnimateProgress 200;
                   RecognizerCreated r; RecognizerStarted r;
                   Scheduled t CbListeningTimeout 10000;
                   RecognizerDestroyed r; Cancelled t])%list /\
  (forall ev, In ev (clock a2) -> ev_id ev <> t).
Proof.
  intros Hp Hl H1 H2 H3 H4 H5 r t a1 a2. subst r t a1 a2.
  py_go. rewrite <- !app_assoc. cbn [Datatypes.app].
  repeat split.
  intros ev Hin Hid. apply filter_In in Hin. destruct Hin as (_ & Hf).
  rewrite Hid, Nat.eqb_refl in Hf. discriminate.
Qed.

Lemma X9_start_then_stop_witness :
  is_listening stopped_app = false /\ recognizer stopped_app = None /\
  listening_timeout stopped_app = None.
Proof.
  assert (H := X9_start_then_stop phone ready_app).
  cbv zeta in H. apply H; reflexivity.
Defined.

(** X10. When the clock fires the pending listening timeout, the session
    is stopped and the user is told: the event leaves the clock, the
    application is not listening, has no recognizer and no timeout (if
    [recognizer.destroy()] does not raise), and the status label reads
    "Listening timeout - please try again". *)
Theorem X10_timeout_fires (id : nat) (e : env) (a : SmartLightControlApp)
        (ev : clock_event) :
  find (fun ev => Nat.eqb (ev_id ev) id) (clock a) = Some ev ->
  ev_callback ev = CbListeningTimeout ->
  recognizer a = None \/ raises e Destroy = None ->
  let a' := snd (fire id e a) in
  fst (fire id e a) = Ret tt /\
  is_listening a' = false /\ recognizer a' = None /\ listening_timeout a' = None /\
  status_text (ui a') = "Listening timeout - please try again" /\
  (forall ev', In ev' (clock a') -> ev_id ev' <> id).
Proof.
  intros Hf Hc Hd a'. subst a'.
  unfold fire, bind, get. rewrite Hf.
  cbv beta iota zeta delta [bind modify]. cbn [fst snd]. rewrite Hc. cbn [run_callback].
  assert (Hclock : forall b : SmartLightControlApp,
             (forall ev', In ev' (clock b) -> ev_id ev' <> id) ->
             recognizer b = None \/ raises e Destroy = None ->
             let b' := snd (listening_timeout_callback e b) in
             fst (listening_timeout_callback e b) = Ret tt /\
             is_listening b' = false /\ recognizer b' = None /\
             listening_timeout b' = None /\
             status_text (ui b') = "Listening timeout - please try again" /\
             (forall ev', In ev' (clock b') -> ev_id ev' <> id)).
  { clear. intros b Hb Hd. revert Hb Hd. py_eval; intros Hb Hd;
      first [ solve [repeat split; first [reflexivity|exact Hb]]
            | solve [destruct Hd; congruence]
            | idtac ];
      repeat split; try reflexivity;
      intros ev' Hin; apply filter_In in Hin; apply Hb, Hin. }
  apply Hclock.
  - cbn [clock set_clock]. intros ev' Hin Hid. apply filter_In in Hin.
    destruct Hin as (_ & Hn). rewrite Hid, Nat.eqb_refl in Hn. discriminate.
  - exact Hd.
Qed.

Lemma X10_timeout_fires_witness :
  is_listening (snd (fire 2 phone (snd (start_listening phone ready_app)))) = false /\
  status_text (ui (snd (fire 2 phone (snd (start_listening phone ready_app))))) =
  "Listening timeout - please try again".
Proof.
  assert (H := X10_timeout_fires 2 phone (snd (start_listening phone ready_app))
                 (ClockEvent 2 CbListeningTimeout 10000)).
  cbv zeta in H. split; apply H; try reflexivity; right; reflexivity.
Defined.

(** X11. One step of the progress animation: while the application is not
    listening a call of [animate_progress] does nothing at all; while it
    is listening, the call keeps the value of the progress bar within 0
    and 99 and schedules exactly one next step, in 0.2 s. *)
Theorem X11_animation (e : env) (a : SmartLightControlApp) :
  (is_listening a = false -> animate_progress e a = (Ret tt, a)) /\
  (is_listening a = true ->
   let a' := snd (animate_progress e a) in
   0 <= progress_value (ui a') < 100 /\
   progress_value (ui a') = (progress_value (ui a) + 10) mod 100 /\
   clock a' = (clock a ++ [ClockEvent (fresh a) CbAnimateProgress 200])%list /\
   is_listening a' = true).
Proof.
  split; intros H.
  - unfold animate_progress, bind, get. now rewrite H.
  - py_go. repeat split; try reflexivity; apply Z.mod_pos_bound; lia.
Qed.

Lemma X11_animation_witness :
  animate_progress phone ready_app = (Ret tt, ready_app).
Proof. apply X11_animation. reflexivity. Defined.

(** ** Platform and edge cases *)

(** X13. [on_start] disables the button exactly when infrared cannot be
    used: on Android, when [getSystemService] returns a manager with an
    emitter and no call raises, the manager is kept and the button is left
    as it was; in every other case the button is disabled and the status
    label is red. On another platform the button is left as it was. *)
Theorem X13_on_start (e : env) (a : SmartLightControlApp) :
  let a' := snd (on_start e a) in
  fst (on_start e a) = Ret tt /\
  (platform e = Android ->
   btn_disabled (ui a') = (if ir_usable e then btn_disabled (ui a) else true) /\
   (ir_usable e = true -> ir_manager a' = Some (IrService true)) /\
   (ir_usable e = false -> status_color (ui a') = RED)) /\
  (platform e = Desktop ->
   btn_disabled (ui a') = btn_disabled (ui a) /\ ir_manager a' = ir_manager a).
Proof.
  unfold ir_usable. destruct e as [p r c]. cbn [raises consumer_ir platform].
  destruct p, (r GetSystemService) eqn:H1, c as [[[|]]|], (r HasIrEmitter) eqn:H2;
    py_go; repeat split; intros; first [reflexivity|discriminate].
Qed.

Lemma X13_on_start_witness :
  btn_disabled (ui (snd (on_start (Env Android quiet None) (snd (build phone new_app)))))
  = true.
Proof.
  assert (H := X13_on_start (Env Android quiet None) (snd (build phone new_app))).
  cbv zeta in H. apply H. reflexivity.
Defined.

(** X14. An empty list is caught: on a phone whose emitter works,
    [send_ir_code] with the empty list fails on [pattern[0]]; the error is
    logged and reported, nothing is transmitted and [send_ir_code]
    returns. *)
Theorem X14_empty_pattern (t : string) (e : env) (a : SmartLightControlApp) :
  platform e = Android -> ir_manager a = Some (IrService true) ->
  raises e HasIrEmitter = None ->
  send_ir_code [] t e a =
  (Ret tt,
   reported "Failed to send IR signal: list index out of range"
     (logged "IR transmission error: list index out of range" (entered [] t a))).
Proof.
  intros Hp Hm Hh. unfold reported, logged, entered. py_go. reflexivity.
Qed.

Lemma X14_empty_pattern_witness :
  send_ir_code [] "nothing" phone ready_app =
  (Ret tt,
   reported "Failed to send IR signal: list index out of range"
     (logged "IR transmission error: list index out of range"
        (entered [] "nothing" ready_app))).
Proof. apply X14_empty_pattern; reflexivity. Defined.

(** X15. An error code of the recognizer that is not in the table (the
    table has the codes 1 to 9) is reported as "Unknown error:" followed by
    the code, and handled like the others: logged, reported, and the stop
    scheduled. *)
Theorem X15_unknown_error (error : Z) (e : env) (a : SmartLightControlApp) :
  error < 1 \/ 9 < error ->
  listener_onError error e a =
  (Ret tt,
   stop_scheduled
     (reported ("Voice recognition error: " ++ "Unknown error: " ++ str_int error)
        (logged ("VoiceRecognition: " ++ "Unknown error: " ++ str_int error) a))).
Proof.
  intros H.
  assert (Hm : int_dict_get error_messages error ("Unknown error: " ++ str_int error)
               = "Unknown error: " ++ str_int error).
  { unfold error_messages. cbn [int_dict_get].
    repeat match goal with
           | |- context [Z.eqb ?k error] =>
               destruct (Z.eqb_spec k error); [lia|]
           end.
    reflexivity. }
  unfold listener_onError, onError. cbv zeta. rewrite Hm.
  unfold reported, logged, stop_scheduled. py_go. reflexivity.
Qed.

Lemma X15_unknown_error_witness :
  listener_onError 42 phone ready_app =
  (Ret tt,
   stop_scheduled
     (reported ("Voice recognition error: " ++ "Unknown error: " ++ str_int 42)
        (logged ("VoiceRecognition: " ++ "Unknown error: " ++ str_int 42) ready_app))).
Proof. apply X15_unknown_error. right. reflexivity. Defined.

(** ** The recognition results *)

(** X16. No results: when the recognizer hands over no list or an empty
    one, [process_speech] says so in the status label, stops the session at
    once and, as always, schedules [stop_listening]; no command is
    executed. *)
Theorem X16_no_results (results : option (list string)) (e : env)
        (a : SmartLightControlApp) :
  results = None \/ results = Some [] ->
  platform e = Android -> raises e GetStringArrayList = None ->
  let a' := snd (process_speech results e a) in
  process_speech results e a =
    (Ret tt,
     stop_scheduled
       (snd (stop_listening e
               (set_ui (set_status "No speech detected - please try again" WHITE (ui a))
                       a)))) /\
  status_text (ui a') = "No speech detected - please try again" /\
  (forall p t, In (SendIr p t) (journal a') -> In (SendIr p t) (journal a)) /\
  (recognizer a = None \/ raises e Destroy = None ->
   is_listening a' = false /\ recognizer a' = None /\ listening_timeout a' = None).
Proof.
  intros Hr Hp Hg. unfold stop_scheduled.
  destruct Hr as [-> | ->]; revert Hp Hg; py_eval; intros Hp Hg;
    try discriminate;
    (split; [reflexivity|]); (split; [reflexivity|]);
    (split;
     [intros p t Hin; rewrite ?in_app_iff in Hin; cbn [In] in Hin;
      repeat (destruct Hin as [Hin|Hin]); first [assumption|discriminate|contradiction]
     |intros [H|H]; first [discriminate|congruence|repeat split]]).
Qed.

Lemma X16_no_results_witness :
  status_text (ui (snd (process_speech (Some []) phone ready_app))) =
  "No speech detected - please try again".
Proof.
  assert (H := X16_no_results (Some []) phone ready_app).
  cbv zeta in H. apply H; [right|..]; reflexivity.
Defined.

Lemma execute_command_no_match (command : string) (e : env) (a : SmartLightControlApp) :
  (forall g p, In p (COMMAND_PATTERNS g) -> search p command true = None) ->
  execute_command command e a = (Ret false, a).
Proof.
  intros H.
  assert (Hg : forall g, first_match (COMMAND_PATTERNS g) command = None).
  { intros g. apply first_match_none. intros p Hp. apply (H g p Hp). }
  unfold execute_command, execute_command_try.
  rewrite (Hg On), (Hg Off), (Hg Color). reflexivity.
Qed.

Lemma try_commands_no_match (matches : list string) (e : env) :
  (forall m, In m matches ->
   forall g p, In p (COMMAND_PATTERNS g) ->
               search p (Str.strip (Str.lower m)) true = None) ->
  forall a,
    try_commands matches e a =
    (Ret false,
     set_journal
       (journal a ++
        List.map (fun m => Log Info ("Processing command: '"
                                     ++ Str.strip (Str.lower m) ++ "'")) matches)
       a).
Proof.
  induction matches as [|m rest IH]; intros H a.
  - cbn. rewrite app_nil_r. destruct a; reflexivity.
  - cbn [try_commands List.map].
    cbv beta iota zeta delta [bind logger_info emit modify].
    rewrite execute_command_no_match by (apply H; now left).
    rewrite IH by (intros m' Hm'; apply H; now right).
    destruct a. cbn. rewrite <- app_assoc. reflexivity.
Qed.

(** X17. Nothing recognized: when no candidate matches any pattern, every
    candidate is logged, in order, no command is executed, the status label
    tells the user what can be said, and [stop_listening] is scheduled. *)
Theorem X17_not_recognized (m : string) (rest : list string) (e : env)
        (a : SmartLightControlApp) :
  (forall m', In m' (m :: rest) ->
   forall g p, In p (COMMAND_PATTERNS g) ->
               search p (Str.strip (Str.lower m')) true = None) ->
  platform e = Android -> raises e GetStringArrayList = None ->
  process_speech (Some (m :: rest)) e a =
  (Ret tt,
   stop_scheduled
     (set_ui
        (set_status
           "Command not recognized. Try: 'Turn on', 'Turn off', or 'Change to [color]'"
           WHITE (ui a))
        (set_journal
           (journal a ++
            List.map (fun m' => Log Info ("Processing command: '"
                                          ++ Str.strip (Str.lower m') ++ "'"))
                     (m :: rest))
           a))).
Proof.
  intros H Hp Hg.
  unfold process_speech, try_finally, try_except, process_speech_try, on_android.
  cbv beta iota zeta delta [bind ask ret java negb]. rewrite Hp, Hg.
  rewrite (try_commands_no_match (m :: rest) e H a).
  unfold stop_scheduled. py_go. reflexivity.
Qed.

Lemma X17_not_recognized_witness :
  current_color (snd (process_speech (Some ["open the door"; "hello"]) phone ready_app))
  = "white".
Proof.
  rewrite (X17_not_recognized "open the door" ["hello"] phone ready_app);
    [reflexivity| |reflexivity|reflexivity].
  intros m' Hm g p Hp.
  destruct Hm as [<-|[<-|[]]]; destruct g; cbn in Hp;
    repeat (destruct Hp as [<-|Hp]; [vm_compute; reflexivity|]); contradiction.
Defined.

(** X18. The first candidate that is accepted ends the loop: the
    candidates after it are neither logged nor executed. *)
Theorem X18_first_accepted_wins (m : string) (rest : list string) (e : env)
        (a : SmartLightControlApp) :
  fst (execute_command (Str.strip (Str.lower m)) e a) = Ret true ->
  process_speech (Some (m :: rest)) e a = process_speech (Some [m]) e a.
Proof.
  intros H. rewrite execute_command_accepts in H.
  unfold process_speech, try_finally, try_except, process_speech_try, on_android.
  cbv beta iota zeta delta [bind ask ret java negb].
  destruct (platform e); [|reflexivity].
  destruct (raises e GetStringArrayList); [reflexivity|].
  cbn [try_commands]. cbv beta iota zeta delta [bind logger_info emit modify].
  match goal with
  | |- context [execute_command ?c e ?a0] =>
      pose proof (execute_command_accepts c e a0) as Hc;
      destruct (execute_command c e a0) as [r a1]
  end.
  cbn [fst] in Hc. rewrite Hc. injection H as ->. reflexivity.
Qed.

Lemma X18_first_accepted_wins_witness :
  process_speech (Some ["turn off"; "make it red"]) phone ready_app =
  process_speech (Some ["turn off"]) phone ready_app.
Proof. apply X18_first_accepted_wins. vm_compute. reflexivity. Defined.

(** ** The table of codes *)

Lemma dict_get_in {V : Type} (d : list (string * V)) (key : string) (v : V) :
  dict_get d key = Some v -> In (key, v) d.
Proof.
  induction d as [|[k w] d IH]; cbn [dict_get]; [discriminate|].
  destruct (String.eqb_spec k key) as [->|_].
  - intros [= ->]. now left.
  - intros H. right. now apply IH.
Qed.

(** X19. No two commands share a code: two colours with the same list in
    [COLOR_MAP] are the same colour, no colour has the list for on or for
    off, these two differ, and every list is a frequency followed by six
    durations. *)
Theorem X19_codes_distinct :
  (forall c1 c2 p,
     dict_get COLOR_MAP c1 = Some p -> dict_get COLOR_MAP c2 = Some p -> c1 = c2) /\
  (forall c p,
     dict_get COLOR_MAP c = Some p ->
     p <> ON_CODE /\ p <> OFF_CODE /\ length p = 7%nat) /\
  ON_CODE <> OFF_CODE.
Proof.
  split; [|split].
  - intros c1 c2 p H1 H2. apply dict_get_in in H1, H2.
    cbn in H1, H2.
    repeat (destruct H1 as [H1|H1]; [injection H1 as <- <-|]); try contradiction;
      repeat (destruct H2 as [H2|H2];
              [first [discriminate H2|injection H2 as <-; reflexivity]|]);
      contradiction.
  - intros c p H. apply dict_get_in in H. cbn in H.
    repeat (destruct H as [H|H];
            [injection H as <- <-; repeat split; discriminate|]).
    contradiction.
  - discriminate.
Qed.

Lemma X19_codes_distinct_witness :
  "pink" = "pink".
Proof.
  exact (proj1 X19_codes_distinct "pink" "pink"
           [38000; 9000; 4500; 1687; 562; 562; 1687] eq_refl eq_refl).
Defined.

(** X20. The error branch of [onResults] is never taken by the listener
    that [start_listening] installs: [process_speech] handles every
    exception itself, so that [onResults] does exactly what
    [process_speech] does. *)
Theorem X20_onResults_is_process_speech (results : option (list string))
        (e : env) (a : SmartLightControlApp) :
  listener_onResults results e a = process_speech results e a /\
  fst (process_speech results e a) = Ret tt.
Proof.
  split; [apply listener_onResults_eq|apply process_speech_effect].
Qed.

(** X21. Only a voice command changes the colour: an operation after which
    [current_color] differs is [execute_command], or [process_speech] or
    [onResults], which call it. *)
Theorem X21_color_changes_by_command (o : op) (e : env) (a : SmartLightControlApp) :
  current_color (snd (run_op o e a)) <> current_color a ->
  (exists command, o = OpExecuteCommand command) \/
  (exists results, o = OpProcessSpeech results) \/
  (exists results, o = OpOnResults results).
Proof.
  destruct o; try (intros _; eauto; fail);
    intros H; exfalso; apply H; clear H;
    apply (by_end_state (fun a' => current_color a' = current_color a));
    try reflexivity; py_eval;
    intros ? ? H; injection H as <- <-; cbv beta iota; trivial.
Qed.

Lemma X21_color_changes_by_command_witness :
  (exists command, OpExecuteCommand "make it pink" = OpExecuteCommand command) \/
  (exists results, OpExecuteCommand "make it pink" = OpProcessSpeech results) \/
  (exists results, OpExecuteCommand "make it pink" = OpOnResults results).
Proof.
  apply (X21_color_changes_by_command (OpExecuteCommand "make it pink") phone ready_app).
  vm_compute. discriminate.
Defined.

(** X22. With a list of candidates [process_speech] does not stop the
    session itself: whatever the candidates and whatever fails, the
    recognizer, the timeout and [is_listening] are what they were, and the
    one clock event added is the stop, due in a second. *)
Theorem X22_stop_is_deferred (m : string) (rest : list string) (e : env)
        (a : SmartLightControlApp) :
  let a' := snd (process_speech (Some (m :: rest)) e a) in
  is_listening a' = is_listening a /\ recognizer a' = recognizer a /\
  listening_timeout a' = listening_timeout a /\
  clock a' = (clock a ++ [ClockEvent (fresh a) CbStopListening 1000])%list.
Proof.
  unfold process_speech, try_finally, try_except, process_speech_try, on_android.
  cbv beta iota zeta delta [bind ask ret java negb].
  destruct (platform e); [|py_go; repeat split].
  destruct (raises e GetStringArrayList); [py_go; repeat split|].
  destruct (try_commands_effect (m :: rest) e a) as ((Hr & Hl & Ht & Hk & Hf & _) & _ & Hcase).
  destruct (try_commands (m :: rest) e a) as [r a1]. cbn [fst snd] in *.
  assert (Hb : exists b, r = Ret b) by (destruct Hcase as [(-> & _)|(-> & _)]; eauto).
  destruct Hb as (b & ->).
  destruct b; py_unfold; py_simpl; rewrite ?Hr, ?Hl, ?Ht, ?Hk, ?Hf; repeat split.
Qed.
